(** * NEStalgic: the CPU bus and the 6502 fetch/decode/execute engine

    A shallow embedding of [include/bus.h], [include/cpu.h] and
    [src/cpu.cpp], followed by the properties of the design document that
    concern them.

    Conventions.
    - [uint8_t], [uint16_t] and [int] values are integers of [Z]; every
      narrowing conversion of the source is written out ([to_uint8],
      [to_uint16]) and signed [int] arithmetic that leaves the range of
      [int] is a fault (it is undefined behaviour in C++).
    - [std::cerr] is the list of the strings sent to it, threaded through
      every operation by the monad [Eff].
    - A C++ exception, a failed [assert] and undefined behaviour end a
      computation with a [Fault]. *)

From Stdlib Require Import ZArith Lia.
From stdpp Require Import base list gmap strings.

Local Open Scope Z_scope.

(** ** Machine integers *)

Definition to_uint8 (x : Z) : Z := x mod 2 ^ 8.
Definition to_uint16 (x : Z) : Z := x mod 2 ^ 16.

Definition is_uint8 (x : Z) : Prop := 0 <= x < 2 ^ 8.
Definition is_uint16 (x : Z) : Prop := 0 <= x < 2 ^ 16.

Definition INT_MIN : Z := - 2 ^ 31.
Definition INT_MAX : Z := 2 ^ 31 - 1.
Definition is_int (x : Z) : Prop := INT_MIN <= x <= INT_MAX.

(** ** Effects: the diagnostic stream and faults *)

Inductive Fault : Type :=
| out_of_range        (* std::out_of_range thrown by a checked access *)
| assertion_failure   (* assert(...) failed *)
| null_member_call    (* call through a null pointer to member: undefined *)
| signed_overflow.    (* int arithmetic out of range: undefined *)

Inductive Outcome (A : Type) : Type :=
| Done (a : A) (cerr : list string)
| Faulted (f : Fault).
Arguments Done {A} a cerr.
Arguments Faulted {A} f.

Definition Eff (A : Type) : Type := list string -> Outcome A.

Definition ret {A : Type} (a : A) : Eff A := fun cerr => Done a cerr.

Definition bind {A B : Type} (m : Eff A) (k : A -> Eff B) : Eff B :=
  fun cerr =>
    match m cerr with
    | Done a cerr' => k a cerr'
    | Faulted f => Faulted f
    end.

Definition fault {A : Type} (f : Fault) : Eff A := fun _ => Faulted f.

(* std::cerr << s *)
Definition put (s : string) : Eff unit := fun cerr => Done tt (cerr ++ [s]).

Declare Scope eff_scope.
Delimit Scope eff_scope with eff.
Notation "'let*' p := m 'in' k" := (bind m (fun p => k))
  (at level 10, p pattern, m at level 100, k at level 200) : eff_scope.
Notation "m >> k" := (bind m (fun _ => k))
  (at level 100, k at level 200, right associativity) : eff_scope.
Local Open Scope eff_scope.

(* x + y and x - y on int *)
Definition int_add (x y : Z) : Eff Z :=
  let r := x + y in
  if (INT_MIN <=? r) && (r <=? INT_MAX) then ret r else fault signed_overflow.

Definition int_sub (x y : Z) : Eff Z :=
  let r := x - y in
  if (INT_MIN <=? r) && (r <=? INT_MAX) then ret r else fault signed_overflow.

(** ** Constants of cpu.h and cpu.cpp *)

Definition CPU_RAM_SIZE : Z := 0x0800.
Definition RESET_VECTOR_LOW_BYTE : Z := 0xFFFC.
Definition CPU_RAM_ADDRESS_MASK : Z := 0x07FF.
Definition CPU_RAM_MAX_RANGE : Z := 0x1FFF.
Definition STACK_POINTER_DEFAULT : Z := 0xFF.
Definition NEWLINE : string := String (Ascii.ascii_of_nat 10) EmptyString.
Definition BITS_PER_BYTE : Z := 8.

Definition invalid_address_message : string :=
  "Error: Invalid address provided Address should be between 0x0000 - 0xFFFF.".

(** ** bus.h: the Bus interface *)

Module Bus.

Class Bus (B : Type) : Type := {
  Read : Z -> B -> Eff (Z * B);
  Write : Z -> Z -> B -> Eff B
}.

End Bus.

(** ** CPUBus *)

Module CPUBus.

(* std::array<uint8_t, CPU_RAM_SIZE> ram_{} *)
Record t : Type := mk { ram_ : list Z }.

(* The implicit default constructor: the array is zero-initialised. *)
Definition CPUBus : t := {| ram_ := replicate (Z.to_nat CPU_RAM_SIZE) 0 |}.

(* ram_.at(i), read *)
Definition at_ (ram : list Z) (i : Z) : Eff Z :=
  match ram !! Z.to_nat i with
  | Some v => ret v
  | None => fault out_of_range
  end.

(* ram_.at(i) = data *)
Definition at_assign (ram : list Z) (i : Z) (data : Z) : Eff (list Z) :=
  if i <? Z.of_nat (length ram) then ret (<[Z.to_nat i := data]> ram)
  else fault out_of_range.

Definition Read (address : Z) (bus : t) : Eff (Z * t) :=
  if (address >=? 0x0000) && (address <=? CPU_RAM_MAX_RANGE) then
    let* v := at_ (ram_ bus) (Z.land address CPU_RAM_ADDRESS_MASK) in
    ret (v, bus)
  else
    put invalid_address_message >>
    put NEWLINE >>
    ret (0, bus).

Definition Write (address : Z) (data : Z) (bus : t) : Eff t :=
  let* bus :=
    (if (address >=? 0x0000) && (address <=? CPU_RAM_MAX_RANGE) then
       let* ram := at_assign (ram_ bus) (Z.land address CPU_RAM_ADDRESS_MASK) data in
       ret {| ram_ := ram |}
     else ret bus) in
  put invalid_address_message >>
  put NEWLINE >>
  ret bus.

(* The class invariant of std::array<uint8_t, CPU_RAM_SIZE>. *)
Definition wf (bus : t) : Prop :=
  Z.of_nat (length (ram_ bus)) = CPU_RAM_SIZE /\ Forall is_uint8 (ram_ bus).

End CPUBus.

#[global] Instance CPUBus_Bus : Bus.Bus CPUBus.t :=
  {| Bus.Read := CPUBus.Read; Bus.Write := CPUBus.Write |}.

(** ** cpu.h: enumerations *)

Inductive AddressingMode : Type := Immediate.

Inductive CPUStatusFlag : Type :=
| Negative | Overflow | Decimal | InterruptDisable | Zero | Carry.

(* The enumerator values: the bit position of each flag. *)
Definition flag_position (flag : CPUStatusFlag) : Z :=
  match flag with
  | Negative => 7
  | Overflow => 6
  | Decimal => 3
  | InterruptDisable => 2
  | Zero => 1
  | Carry => 0
  end.

(** ** CPU::CPUStatus

    A [std::bitset<8>] is held as the integer whose binary digits are its
    bits.  [set] and [test] of the standard library check [pos < 8]; every
    enumerator of [CPUStatusFlag] is below 8, so that check never fires
    and both are total here. *)

Module CPUStatus.

Record t : Type := mk { flags : Z }.

(* A default-constructed std::bitset has every bit clear. *)
Definition CPUStatus : t := {| flags := 0 |}.

Definition Set_ (flag : CPUStatusFlag) (value : bool) (p : t) : t :=
  {| flags := if value then Z.setbit (flags p) (flag_position flag)
              else Z.clearbit (flags p) (flag_position flag) |}.

Definition Get (flag : CPUStatusFlag) (p : t) : bool :=
  Z.testbit (flags p) (flag_position flag).

(* std::bitset<8>(value) keeps the low 8 bits of value. *)
Definition FromByte (value : Z) : t := {| flags := Z.land value (Z.ones 8) |}.

(* static_cast<uint8_t>(flags.to_ulong()) *)
Definition ToByte (p : t) : Z := to_uint8 (flags p).

Definition wf (p : t) : Prop := is_uint8 (flags p).

End CPUStatus.

(** ** CPU *)

Module CPU.

(* The member functions an OpcodeEntry can point to. *)
Inductive Operation : Type := op_LDA.

(* [operation] is a pointer to member: [None] is the null pointer. *)
Record OpcodeEntry : Type := mkOpcodeEntry {
  addressingMode : AddressingMode;
  operation : option Operation;
  cycleCount : Z
}.

(* A value-initialised OpcodeEntry, as std::unordered_map::operator[]
   inserts for a missing key: every member is zero. *)
Definition OpcodeEntry_zero : OpcodeEntry :=
  {| addressingMode := Immediate; operation := None; cycleCount := 0 |}.

Record t (B : Type) : Type := mk {
  cpu_bus_ : B;
  a_ : Z;
  x_ : Z;
  y_ : Z;
  pc_ : Z;
  s_ : Z;
  p_ : CPUStatus.t;
  opcode_ : Z;
  operand_ : Z;
  remaining_cycles_ : Z;
  operations_ : gmap Z OpcodeEntry
}.
Arguments mk {B}.
Arguments cpu_bus_ {B}.
Arguments a_ {B}.
Arguments x_ {B}.
Arguments y_ {B}.
Arguments pc_ {B}.
Arguments s_ {B}.
Arguments p_ {B}.
Arguments opcode_ {B}.
Arguments operand_ {B}.
Arguments remaining_cycles_ {B}.
Arguments operations_ {B}.

Section Fields.
Context {B : Type}.

Definition with_cpu_bus (v : B) (c : t B) : t B :=
  mk v (a_ c) (x_ c) (y_ c) (pc_ c) (s_ c) (p_ c) (opcode_ c) (operand_ c)
     (remaining_cycles_ c) (operations_ c).
Definition with_a (v : Z) (c : t B) : t B :=
  mk (cpu_bus_ c) v (x_ c) (y_ c) (pc_ c) (s_ c) (p_ c) (opcode_ c) (operand_ c)
     (remaining_cycles_ c) (operations_ c).
Definition with_x (v : Z) (c : t B) : t B :=
  mk (cpu_bus_ c) (a_ c) v (y_ c) (pc_ c) (s_ c) (p_ c) (opcode_ c) (operand_ c)
     (remaining_cycles_ c) (operations_ c).
Definition with_y (v : Z) (c : t B) : t B :=
  mk (cpu_bus_ c) (a_ c) (x_ c) v (pc_ c) (s_ c) (p_ c) (opcode_ c) (operand_ c)
     (remaining_cycles_ c) (operations_ c).
Definition with_pc (v : Z) (c : t B) : t B :=
  mk (cpu_bus_ c) (a_ c) (x_ c) (y_ c) v (s_ c) (p_ c) (opcode_ c) (operand_ c)
     (remaining_cycles_ c) (operations_ c).
Definition with_s (v : Z) (c : t B) : t B :=
  mk (cpu_bus_ c) (a_ c) (x_ c) (y_ c) (pc_ c) v (p_ c) (opcode_ c) (operand_ c)
     (remaining_cycles_ c) (operations_ c).
Definition with_p (v : CPUStatus.t) (c : t B) : t B :=
  mk (cpu_bus_ c) (a_ c) (x_ c) (y_ c) (pc_ c) (s_ c) v (opcode_ c) (operand_ c)
     (remaining_cycles_ c) (operations_ c).
Definition with_opcode (v : Z) (c : t B) : t B :=
  mk (cpu_bus_ c) (a_ c) (x_ c) (y_ c) (pc_ c) (s_ c) (p_ c) v (operand_ c)
     (remaining_cycles_ c) (operations_ c).
Definition with_operand (v : Z) (c : t B) : t B :=
  mk (cpu_bus_ c) (a_ c) (x_ c) (y_ c) (pc_ c) (s_ c) (p_ c) (opcode_ c) v
     (remaining_cycles_ c) (operations_ c).
Definition with_remaining_cycles (v : Z) (c : t B) : t B :=
  mk (cpu_bus_ c) (a_ c) (x_ c) (y_ c) (pc_ c) (s_ c) (p_ c) (opcode_ c) (operand_ c)
     v (operations_ c).
Definition with_operations (v : gmap Z OpcodeEntry) (c : t B) : t B :=
  mk (cpu_bus_ c) (a_ c) (x_ c) (y_ c) (pc_ c) (s_ c) (p_ c) (opcode_ c) (operand_ c)
     (remaining_cycles_ c) v.

End Fields.

Section Operations.
Context {B : Type} `{!Bus.Bus B}.

(* operations_[key]: a missing key is inserted with a value-initialised
   entry, which is then the one returned. *)
Definition operations_index (key : Z) (c : t B) : OpcodeEntry * t B :=
  match operations_ c !! key with
  | Some entry => (entry, c)
  | None =>
      (OpcodeEntry_zero,
       with_operations (<[key := OpcodeEntry_zero]> (operations_ c)) c)
  end.

Definition LoadOperations (c : t B) : t B :=
  with_operations
    {[ 0xA9 := {| addressingMode := Immediate;
                  operation := Some op_LDA;
                  cycleCount := 2 |} ]} c.

(* CPU::CPU(Bus* cpuBus); [None] is the null pointer.  The other members
   take their default member initialisers. *)
Definition CPU (cpuBus : option B) : Eff (t B) :=
  match cpuBus with
  | None => fault assertion_failure
  | Some bus =>
      ret (LoadOperations
             {| cpu_bus_ := bus; a_ := 0x00; x_ := 0x00; y_ := 0x00;
                pc_ := 0x0000; s_ := 0xFF; p_ := CPUStatus.CPUStatus;
                opcode_ := 0x00; operand_ := 0x00; remaining_cycles_ := 0;
                operations_ := ∅ |})
  end.

Definition Read (address : Z) (c : t B) : Eff (Z * t B) :=
  let* (v, bus) := Bus.Read address (cpu_bus_ c) in
  ret (v, with_cpu_bus bus c).

(* Read(pc_++): the address read is the old program counter. *)
Definition Read_pc_incr (c : t B) : Eff (Z * t B) :=
  Read (pc_ c) (with_pc (to_uint16 (pc_ c + 1)) c).

(* AddressingMode has the single enumerator Immediate, so the switch always
   returns and the diagnostic after it is never reached. *)
Definition FetchOperand (addressingMode : AddressingMode) (c : t B)
  : Eff (Z * t B) :=
  match addressingMode with
  | Immediate => Read_pc_incr c
  end.

Definition LDA (c : t B) : t B :=
  let c := with_a (operand_ c) c in
  let c :=
    with_p (CPUStatus.Set_ Negative (negb (Z.land (a_ c) 0x80 =? 0x00)) (p_ c)) c in
  with_p (CPUStatus.Set_ Zero (a_ c =? 0x00) (p_ c)) c.

(* (this->*operation)() *)
Definition call (operation : option Operation) (c : t B) : Eff (t B) :=
  match operation with
  | Some op_LDA => ret (LDA c)
  | None => fault null_member_call
  end.

Definition Clock (c : t B) : Eff (t B) :=
  let* c :=
    (if remaining_cycles_ c =? 0 then
       let* (opcode, c) := Read_pc_incr c in
       let c := with_opcode opcode c in
       let (opcodeEntry, c) := operations_index (opcode_ c) c in
       let* (operand, c) := FetchOperand (addressingMode opcodeEntry) c in
       let c := with_operand operand c in
       let* c := call (operation opcodeEntry) c in
       let* cycles := int_add (remaining_cycles_ c) (cycleCount opcodeEntry) in
       ret (with_remaining_cycles cycles c)
     else ret c) in
  let* cycles := int_sub (remaining_cycles_ c) 1 in
  ret (with_remaining_cycles cycles c).

Definition Reset (c : t B) : Eff (t B) :=
  let c := with_a 0x00 c in
  let c := with_x 0x00 c in
  let c := with_y 0x00 c in
  let c := with_s STACK_POINTER_DEFAULT c in
  let c := with_p (CPUStatus.FromByte 0x00) c in
  let* (pc_lo, c) := Read RESET_VECTOR_LOW_BYTE c in
  let* (pc_hi, c) := Read (to_uint16 (RESET_VECTOR_LOW_BYTE + 1)) c in
  let c := with_pc (to_uint16 (Z.lor (Z.shiftl pc_hi BITS_PER_BYTE) pc_lo)) c in
  let reset_cycle_count := 7 in
  let* cycles := int_add (remaining_cycles_ c) reset_cycle_count in
  ret (with_remaining_cycles cycles c).

(* [n] successive calls of Clock. *)
Fixpoint Clock_n (n : nat) (c : t B) : Eff (t B) :=
  match n with
  | O => ret c
  | S n' => let* c := Clock c in Clock_n n' c
  end.

End Operations.

End CPU.

(** ** internal::CPUTestHelper *)

Module CPUTestHelper.

Section Helper.
Context {B : Type}.

Definition SetAccumulator (cpu : CPU.t B) (accumulatorValue : Z) : CPU.t B :=
  CPU.with_a accumulatorValue cpu.

Definition GetAccumulator (cpu : CPU.t B) : Z := CPU.a_ cpu.

Definition SetProgramCounter (cpu : CPU.t B) (programCounter : Z) : CPU.t B :=
  CPU.with_pc programCounter cpu.

Definition GetProgramCounter (cpu : CPU.t B) : Z := CPU.pc_ cpu.

Definition GetStatusFlag (cpu : CPU.t B) (flag : CPUStatusFlag) : bool :=
  CPUStatus.Get flag (CPU.p_ cpu).

End Helper.

End CPUTestHelper.

(** * Vocabulary of the properties *)

(* The diagnostic stream after one invalid-address report. *)
Definition reported (cerr : list string) : list string :=
  cerr ++ [invalid_address_message; NEWLINE].

(* A bus whose RAM starts with the bytes [l] and is zero elsewhere. *)
Definition bus_with_program (l : list Z) : CPUBus.t :=
  {| CPUBus.ram_ := l ++ replicate (Z.to_nat CPU_RAM_SIZE - length l) 0 |}.

(* The members of a CPU just constructed on [bus]. *)
Definition power_on {B : Type} (bus : B) : CPU.t B :=
  {| CPU.cpu_bus_ := bus; CPU.a_ := 0x00; CPU.x_ := 0x00; CPU.y_ := 0x00;
     CPU.pc_ := 0x0000; CPU.s_ := 0xFF; CPU.p_ := {| CPUStatus.flags := 0 |};
     CPU.opcode_ := 0x00; CPU.operand_ := 0x00; CPU.remaining_cycles_ := 0;
     CPU.operations_ :=
       {[ 0xA9 := {| CPU.addressingMode := Immediate;
                     CPU.operation := Some CPU.op_LDA;
                     CPU.cycleCount := 2 |} ]} |}.

(* A Clock call that refuses to fetch: it returns having changed nothing
   but the pending-cycle counter. *)
Definition refuses_fetch {B : Type} `{!Bus.Bus B}
    (c : CPU.t B) (cerr : list string) : Prop :=
  exists cycles, CPU.Clock c cerr = Done (CPU.with_remaining_cycles cycles c) cerr.

(* The next [n] Clock calls all refuse to fetch. *)
Definition refuses_for {B : Type} `{!Bus.Bus B}
    (n : nat) (c : CPU.t B) (cerr : list string) : Prop :=
  forall k, (k < n)%nat ->
    exists ck, CPU.Clock_n k c cerr = Done ck cerr /\ refuses_fetch ck cerr.

(* After [n] Clock calls the counter is zero and the following call fetches:
   it is not a refusal, and when it returns it has consumed the opcode byte
   and the operand byte at the program counter. *)
Definition fetches_after {B : Type} `{!Bus.Bus B}
    (n : nat) (c : CPU.t B) (cerr : list string) : Prop :=
  exists cn, CPU.Clock_n n c cerr = Done cn cerr /\
             CPU.remaining_cycles_ cn = 0 /\
             ~ refuses_fetch cn cerr /\
             (forall c' cerr', CPU.Clock cn cerr = Done c' cerr' ->
                CPU.pc_ c' = to_uint16 (to_uint16 (CPU.pc_ cn + 1) + 1)).

(* The state after an LDA-immediate instruction of cost [n], fetched by [c]
   with opcode byte [op] and operand byte [v], the bus being left as
   [bus']. *)
Definition after_LDA {B : Type} (op v n : Z) (bus' : B) (c : CPU.t B) : CPU.t B :=
  {| CPU.cpu_bus_ := bus'; CPU.a_ := v; CPU.x_ := CPU.x_ c; CPU.y_ := CPU.y_ c;
     CPU.pc_ := to_uint16 (to_uint16 (CPU.pc_ c + 1) + 1); CPU.s_ := CPU.s_ c;
     CPU.p_ := CPUStatus.Set_ Zero (v =? 0x00)
                 (CPUStatus.Set_ Negative (negb (Z.land v 0x80 =? 0x00)) (CPU.p_ c));
     CPU.opcode_ := op; CPU.operand_ := v; CPU.remaining_cycles_ := n - 1;
     CPU.operations_ := CPU.operations_ c |}.

(* The opcode table that LoadOperations installs. *)
Definition loaded_operations : gmap Z CPU.OpcodeEntry :=
  {[ 0xA9 := {| CPU.addressingMode := Immediate;
                CPU.operation := Some CPU.op_LDA;
                CPU.cycleCount := 2 |} ]}.

(* The state invariant of a CPU on a CPUBus: every member is in the range
   of its C++ type, the array has its size, no cycle debt is negative and
   the table is the loaded one. *)
Definition machine_inv (c : CPU.t CPUBus.t) : Prop :=
  CPUBus.wf (CPU.cpu_bus_ c) /\
  is_uint8 (CPU.a_ c) /\ is_uint8 (CPU.x_ c) /\ is_uint8 (CPU.y_ c) /\
  is_uint16 (CPU.pc_ c) /\ is_uint8 (CPU.s_ c) /\
  CPUStatus.wf (CPU.p_ c) /\
  is_uint8 (CPU.opcode_ c) /\ is_uint8 (CPU.operand_ c) /\
  0 <= CPU.remaining_cycles_ c <= INT_MAX /\
  CPU.operations_ c = loaded_operations.

(* The machine code of a sequence of LDA #v instructions. *)
Fixpoint assemble (vs : list Z) : list Z :=
  match vs with
  | [] => []
  | v :: vs' => 0xA9 :: v :: assemble vs'
  end.

(* The bus answers the addresses from [p] on with the bytes of [code], as a
   plain observation: same bus, no report. *)
Definition serves {B : Type} `{!Bus.Bus B} (bus : B) (p : Z) (code : list Z) : Prop :=
  forall (i : nat) (b : Z) (cerr : list string),
    code !! i = Some b ->
    Bus.Read (to_uint16 (p + Z.of_nat i)) bus cerr = Done (b, bus) cerr.

(** * The CPU bus *)

Lemma window_test_true (a : Z) :
  0x0000 <= a <= 0x1FFF ->
  (a >=? 0x0000) && (a <=? CPU_RAM_MAX_RANGE) = true.
Proof.
  intros Ha. unfold CPU_RAM_MAX_RANGE.
  rewrite Z.geb_leb. apply andb_true_intro.
  split; apply Z.leb_le; lia.
Qed.

Lemma window_test_false (a : Z) :
  0x1FFF < a ->
  (a >=? 0x0000) && (a <=? CPU_RAM_MAX_RANGE) = false.
Proof.
  intros Ha. unfold CPU_RAM_MAX_RANGE.
  apply andb_false_intro2. apply Z.leb_gt. lia.
Qed.

(* The mask keeps the low 11 bits, so the physical index is below the
   array size whatever the address. *)
Lemma physical_index_bound (a : Z) :
  0 <= Z.land a CPU_RAM_ADDRESS_MASK < CPU_RAM_SIZE.
Proof.
  change CPU_RAM_ADDRESS_MASK with (Z.ones 11).
  rewrite Z.land_ones by lia.
  change CPU_RAM_SIZE with (2 ^ 11).
  apply Z.mod_pos_bound. lia.
Qed.

Lemma put_report (cerr : list string) {A : Type} (k : Eff A) :
  (put invalid_address_message >> put NEWLINE >> k) cerr = k (reported cerr).
Proof.
  unfold bind, put, reported. simpl.
  by rewrite <- app_assoc.
Qed.

Lemma at_in_bounds (ram : list Z) (i : Z) (cerr : list string) :
  0 <= i < Z.of_nat (length ram) ->
  exists v, ram !! Z.to_nat i = Some v /\ CPUBus.at_ ram i cerr = Done v cerr.
Proof.
  intros Hi.
  destruct (lookup_lt_is_Some_2 ram (Z.to_nat i)) as [v Hv]; [lia |].
  exists v. split; [done |].
  unfold CPUBus.at_. by rewrite Hv.
Qed.

Lemma at_assign_in_bounds (ram : list Z) (i data : Z) (cerr : list string) :
  0 <= i < Z.of_nat (length ram) ->
  CPUBus.at_assign ram i data cerr = Done (<[Z.to_nat i := data]> ram) cerr.
Proof.
  intros Hi. unfold CPUBus.at_assign.
  destruct (Z.ltb_spec i (Z.of_nat (length ram))); [done | lia].
Qed.

(* Read inside the RAM window: the byte at the masked index, no report. *)
Lemma Read_in_window (bus : CPUBus.t) (a : Z) (cerr : list string) :
  CPUBus.wf bus -> 0x0000 <= a <= 0x1FFF ->
  exists v,
    CPUBus.ram_ bus !! Z.to_nat (Z.land a CPU_RAM_ADDRESS_MASK) = Some v /\
    CPUBus.Read a bus cerr = Done (v, bus) cerr.
Proof.
  intros [Hlen _] Ha.
  pose proof (physical_index_bound a) as Hi.
  destruct (at_in_bounds (CPUBus.ram_ bus) _ cerr ltac:(rewrite Hlen; exact Hi))
    as (v & Hv & Hat).
  exists v. split; [done |].
  unfold CPUBus.Read. rewrite window_test_true by done.
  unfold bind. by rewrite Hat.
Qed.

(* Write inside the RAM window: the byte is stored at the masked index, and
   the report that follows the if statement is issued all the same. *)
Lemma Write_in_window (bus : CPUBus.t) (a v : Z) (cerr : list string) :
  CPUBus.wf bus -> 0x0000 <= a <= 0x1FFF ->
  CPUBus.Write a v bus cerr =
    Done {| CPUBus.ram_ :=
              <[Z.to_nat (Z.land a CPU_RAM_ADDRESS_MASK) := v]> (CPUBus.ram_ bus) |}
         (reported cerr).
Proof.
  intros [Hlen _] Ha.
  pose proof (physical_index_bound a) as Hi.
  unfold CPUBus.Write. rewrite window_test_true by done.
  unfold bind at 1. unfold bind at 1.
  rewrite at_assign_in_bounds by (rewrite Hlen; exact Hi).
  unfold ret at 1. by rewrite put_report.
Qed.

Lemma Read_outside_window (bus : CPUBus.t) (a : Z) (cerr : list string) :
  0x1FFF < a -> CPUBus.Read a bus cerr = Done (0, bus) (reported cerr).
Proof.
  intros Ha. unfold CPUBus.Read. rewrite window_test_false by done.
  by rewrite put_report.
Qed.

Lemma Write_outside_window (bus : CPUBus.t) (a v : Z) (cerr : list string) :
  0x1FFF < a -> CPUBus.Write a v bus cerr = Done bus (reported cerr).
Proof.
  intros Ha. unfold CPUBus.Write. rewrite window_test_false by done.
  unfold bind at 1. unfold ret at 1. by rewrite put_report.
Qed.

Lemma Write_preserves_wf (bus bus' : CPUBus.t) (a v : Z) (cerr cerr' : list string) :
  CPUBus.wf bus -> is_uint8 v -> is_uint16 a ->
  CPUBus.Write a v bus cerr = Done bus' cerr' -> CPUBus.wf bus'.
Proof.
  intros Hwf Hv Ha HW.
  destruct (Z_le_gt_dec a 0x1FFF) as [Hle | Hgt].
  - rewrite Write_in_window in HW by (unfold is_uint16 in Ha; done || lia).
    injection HW as <- _. destruct Hwf as [Hlen Hall].
    split; simpl.
    + by rewrite length_insert.
    + by apply Forall_insert.
  - rewrite Write_outside_window in HW by lia.
    by injection HW as <- _.
Qed.

Lemma CPUBus_default_wf : CPUBus.wf CPUBus.CPUBus.
Proof.
  unfold CPUBus.wf, CPUBus.CPUBus. cbn [CPUBus.ram_]. split.
  - rewrite length_replicate. reflexivity.
  - apply Forall_replicate. unfold is_uint8. lia.
Qed.

Lemma mask_idempotent (a : Z) :
  Z.land (Z.land a 0x07FF) 0x07FF = Z.land a 0x07FF.
Proof. by rewrite <- Z.land_assoc, Z.land_diag. Qed.

Lemma mask_next_mirror (a : Z) :
  Z.land (a + 0x0800) 0x07FF = Z.land a 0x07FF.
Proof.
  change 0x07FF with (Z.ones 11). rewrite !Z.land_ones by lia.
  change 0x0800 with (1 * 2 ^ 11). apply Z_mod_plus_full.
Qed.

(** C2 (mirroring).  For every address [a] of the window 0x0000..0x1FFF and
    every byte [v], [Write a v] returns, and after it [Read a'] returns [v]
    for every [a'] of the window that has the low 11 bits of [a]; among
    them [a & 0x07FF] and, when it is still inside the window,
    [a + 0x0800]. *)
Theorem CPUBus_mirroring (bus : CPUBus.t) (a v : Z) (cerr : list string) :
  CPUBus.wf bus -> 0x0000 <= a <= 0x1FFF -> is_uint8 v ->
  exists bus' cerr',
    CPUBus.Write a v bus cerr = Done bus' cerr' /\
    (forall a', 0x0000 <= a' <= 0x1FFF ->
                Z.land a' 0x07FF = Z.land a 0x07FF ->
                CPUBus.Read a' bus' cerr' = Done (v, bus') cerr') /\
    CPUBus.Read (Z.land a 0x07FF) bus' cerr' = Done (v, bus') cerr' /\
    (a + 0x0800 <= 0x1FFF ->
     CPUBus.Read (a + 0x0800) bus' cerr' = Done (v, bus') cerr').
Proof.
  intros Hwf Ha Hv.
  pose proof (Write_in_window bus a v cerr Hwf Ha) as HW.
  set (bus' := {| CPUBus.ram_ := _ |}) in HW.
  assert (Hwf' : CPUBus.wf bus').
  { eapply Write_preserves_wf; [exact Hwf | exact Hv | | exact HW].
    unfold is_uint16. lia. }
  assert (Hread : forall a', 0x0000 <= a' <= 0x1FFF ->
                             Z.land a' 0x07FF = Z.land a 0x07FF ->
                             CPUBus.Read a' bus' (reported cerr)
                             = Done (v, bus') (reported cerr)).
  { intros a' Ha' Hlow.
    destruct (Read_in_window bus' a' (reported cerr) Hwf' Ha') as (v' & Hv' & HR).
    rewrite HR. f_equal. f_equal.
    change CPU_RAM_ADDRESS_MASK with 0x07FF in Hv'. rewrite Hlow in Hv'.
    subst bus'. cbn [CPUBus.ram_] in Hv'.
    rewrite list_lookup_insert_eq in Hv'; [congruence |].
    destruct Hwf as [Hlen _].
    pose proof (physical_index_bound a) as Hi.
    unfold CPU_RAM_ADDRESS_MASK, CPU_RAM_SIZE in *. lia. }
  exists bus', (reported cerr). split; [exact HW |]. split; [exact Hread |]. split.
  - apply Hread; [| apply mask_idempotent].
    pose proof (physical_index_bound a) as Hi.
    change CPU_RAM_ADDRESS_MASK with 0x07FF in Hi.
    change CPU_RAM_SIZE with 0x0800 in Hi. lia.
  - intros Hin. apply Hread; [lia | apply mask_next_mirror].
Qed.

Lemma CPUBus_mirroring_witness :
  exists bus' cerr',
    CPUBus.Write 0x1FFF 0x01 CPUBus.CPUBus [] = Done bus' cerr' /\
    (forall a', 0x0000 <= a' <= 0x1FFF ->
                Z.land a' 0x07FF = Z.land 0x1FFF 0x07FF ->
                CPUBus.Read a' bus' cerr' = Done (0x01, bus') cerr') /\
    CPUBus.Read (Z.land 0x1FFF 0x07FF) bus' cerr' = Done (0x01, bus') cerr' /\
    (0x1FFF + 0x0800 <= 0x1FFF ->
     CPUBus.Read (0x1FFF + 0x0800) bus' cerr' = Done (0x01, bus') cerr').
Proof.
  apply (CPUBus_mirroring CPUBus.CPUBus 0x1FFF 0x01 []).
  - exact CPUBus_default_wf.
  - lia.
  - unfold is_uint8. lia.
Defined.

(** C6 (addresses outside every declared region).  For every address in
    0x2000..0xFFFF, [Read] returns 0 and [Write] leaves the bus, hence the
    RAM, as it was; each sends the invalid-address report to the diagnostic
    stream and returns normally. *)
Theorem CPUBus_unmapped_address (bus : CPUBus.t) (a v : Z) (cerr : list string) :
  0x2000 <= a <= 0xFFFF ->
  CPUBus.Read a bus cerr = Done (0, bus) (reported cerr) /\
  CPUBus.Write a v bus cerr = Done bus (reported cerr).
Proof.
  intros Ha. split.
  - apply Read_outside_window. lia.
  - apply Write_outside_window. lia.
Qed.

Lemma CPUBus_unmapped_address_witness :
  CPUBus.Read 0xFFFC CPUBus.CPUBus [] = Done (0, CPUBus.CPUBus) (reported []) /\
  CPUBus.Write 0xFFFC 0x34 CPUBus.CPUBus [] = Done CPUBus.CPUBus (reported []).
Proof.
  apply (CPUBus_unmapped_address CPUBus.CPUBus 0xFFFC 0x34 []). lia.
Defined.

(** C7 (serve or report, never both), at a failing input.  [Write] of 0x01
    at address 0x0000 of a new bus stores the byte in RAM and also sends
    the invalid-address report: the if statement of [Write] does not
    return, so the report that follows it is issued for every address. *)
Theorem CPUBus_Write_serves_and_reports :
  exists bus',
    CPUBus.Write 0x0000 0x01 CPUBus.CPUBus [] = Done bus' (reported []) /\
    CPUBus.ram_ CPUBus.CPUBus !! 0%nat = Some 0x00 /\
    CPUBus.ram_ bus' !! 0%nat = Some 0x01 /\
    reported [] = [invalid_address_message; NEWLINE].
Proof.
  eexists. split.
  - apply Write_in_window; [exact CPUBus_default_wf | lia].
  - repeat split.
Qed.

(** C9 (no access outside the array).  The physical index [a & 0x07FF] is
    below the array size 0x0800, so for every 16-bit address the checked
    element access succeeds: [Read] returns a byte and [Write] returns a
    bus whose array still has its 2 KiB. *)
Theorem CPUBus_access_in_bounds (bus : CPUBus.t) (a v : Z) (cerr : list string) :
  CPUBus.wf bus -> is_uint16 a -> is_uint8 v ->
  0 <= Z.land a CPU_RAM_ADDRESS_MASK < CPU_RAM_SIZE /\
  (exists r cerr', CPUBus.Read a bus cerr = Done (r, bus) cerr' /\ is_uint8 r) /\
  (exists bus' cerr', CPUBus.Write a v bus cerr = Done bus' cerr' /\ CPUBus.wf bus').
Proof.
  intros Hwf Ha Hv. split; [apply physical_index_bound |].
  assert (HW : exists bus' cerr', CPUBus.Write a v bus cerr = Done bus' cerr').
  { destruct (Z_le_gt_dec a 0x1FFF) as [Hle | Hgt].
    - eexists _, _. apply Write_in_window; [done | unfold is_uint16 in Ha; lia].
    - eexists _, _. apply Write_outside_window. lia. }
  split.
  - destruct (Z_le_gt_dec a 0x1FFF) as [Hle | Hgt].
    + destruct (Read_in_window bus a cerr Hwf) as (r & Hr & HR);
        [unfold is_uint16 in Ha; lia |].
      exists r, cerr. split; [done |].
      destruct Hwf as [_ Hall].
      rewrite Forall_lookup in Hall. by eapply Hall.
    + exists 0, (reported cerr). split; [apply Read_outside_window; lia |].
      unfold is_uint8. lia.
  - destruct HW as (bus' & cerr' & HW). exists bus', cerr'.
    split; [done |]. by eapply Write_preserves_wf.
Qed.

Lemma CPUBus_access_in_bounds_witness :
  0 <= Z.land 0x1FFF CPU_RAM_ADDRESS_MASK < CPU_RAM_SIZE /\
  (exists r cerr', CPUBus.Read 0x1FFF CPUBus.CPUBus [] = Done (r, CPUBus.CPUBus) cerr'
                   /\ is_uint8 r) /\
  (exists bus' cerr', CPUBus.Write 0x1FFF 0xFF CPUBus.CPUBus [] = Done bus' cerr'
                      /\ CPUBus.wf bus').
Proof.
  apply (CPUBus_access_in_bounds CPUBus.CPUBus 0x1FFF 0xFF []).
  - exact CPUBus_default_wf.
  - unfold is_uint16. lia.
  - unfold is_uint8. lia.
Defined.

(** * The status register *)

Lemma flag_position_range (flag : CPUStatusFlag) : 0 <= flag_position flag < 8.
Proof. destruct flag; simpl; lia. Qed.

Lemma flag_position_inj (f g : CPUStatusFlag) :
  flag_position f = flag_position g -> f = g.
Proof. destruct f, g; simpl; intros Heq; congruence. Qed.

(* Set changes the bit of its flag and no other bit. *)
Lemma testbit_Set_ (flag : CPUStatusFlag) (value : bool) (p : CPUStatus.t) (i : Z) :
  Z.testbit (CPUStatus.flags (CPUStatus.Set_ flag value p)) i =
  if flag_position flag =? i then value else Z.testbit (CPUStatus.flags p) i.
Proof.
  pose proof (flag_position_range flag) as Hpos.
  unfold CPUStatus.Set_. cbn [CPUStatus.flags].
  destruct value.
  - rewrite Z.setbit_eqb by lia. by destruct (flag_position flag =? i).
  - rewrite Z.clearbit_eqb.
    destruct (flag_position flag =? i); simpl; [apply andb_false_r | apply andb_true_r].
Qed.

Lemma Get_Set_ (flag flag' : CPUStatusFlag) (value : bool) (p : CPUStatus.t) :
  CPUStatus.Get flag' (CPUStatus.Set_ flag value p) =
  if flag_position flag =? flag_position flag' then value else CPUStatus.Get flag' p.
Proof. unfold CPUStatus.Get. apply testbit_Set_. Qed.

Lemma FromByte_wf (value : Z) : CPUStatus.wf (CPUStatus.FromByte value).
Proof.
  unfold CPUStatus.wf, is_uint8, CPUStatus.FromByte. cbn [CPUStatus.flags].
  rewrite Z.land_ones by lia. apply Z.mod_pos_bound. lia.
Qed.

(** C8 (status conversion).  For every byte [b], [FromByte b] followed by
    [ToByte] gives [b] back, and each named flag of [FromByte b] is the bit
    of [b] at the flag's position; conversely a status register converted
    to a byte and back is the same register. *)
Theorem CPUStatus_byte_roundtrip (b : Z) :
  0 <= b <= 255 ->
  CPUStatus.ToByte (CPUStatus.FromByte b) = b /\
  (forall flag, CPUStatus.Get flag (CPUStatus.FromByte b)
                = Z.testbit b (flag_position flag)) /\
  (forall p, CPUStatus.wf p -> CPUStatus.FromByte (CPUStatus.ToByte p) = p).
Proof.
  intros Hb. split; [| split].
  - unfold CPUStatus.ToByte, CPUStatus.FromByte, to_uint8. cbn [CPUStatus.flags].
    rewrite Z.land_ones by lia. rewrite Z.mod_mod by lia.
    apply Z.mod_small. lia.
  - intros flag. pose proof (flag_position_range flag) as Hpos.
    unfold CPUStatus.Get, CPUStatus.FromByte. cbn [CPUStatus.flags].
    rewrite Z.land_spec, Z.ones_spec_low by lia. apply andb_true_r.
  - intros [fl] Hp. unfold CPUStatus.wf, is_uint8 in Hp. cbn [CPUStatus.flags] in Hp.
    unfold CPUStatus.FromByte, CPUStatus.ToByte, to_uint8. cbn [CPUStatus.flags].
    f_equal. rewrite Z.land_ones by lia. rewrite Z.mod_mod by lia.
    apply Z.mod_small. lia.
Qed.

Lemma CPUStatus_byte_roundtrip_witness :
  CPUStatus.ToByte (CPUStatus.FromByte 0xC3) = 0xC3 /\
  (forall flag, CPUStatus.Get flag (CPUStatus.FromByte 0xC3)
                = Z.testbit 0xC3 (flag_position flag)) /\
  (forall p, CPUStatus.wf p -> CPUStatus.FromByte (CPUStatus.ToByte p) = p).
Proof. apply (CPUStatus_byte_roundtrip 0xC3). lia. Defined.

(** * Load Accumulator *)

Lemma land_bit_test (a n : Z) :
  0 <= n -> negb (Z.land a (2 ^ n) =? 0) = Z.testbit a n.
Proof.
  intros Hn. destruct (Z.testbit a n) eqn:Hbit.
  - apply negb_true_iff, Z.eqb_neq. intros Hz.
    assert (Hn' : Z.testbit (Z.land a (2 ^ n)) n = true)
      by (rewrite Z.land_spec, Hbit, Z.pow2_bits_true by lia; done).
    rewrite Hz, Z.bits_0 in Hn'. discriminate.
  - apply negb_false_iff, Z.eqb_eq. apply Z.bits_inj'. intros m Hm.
    rewrite Z.land_spec, Z.bits_0.
    destruct (Z.eq_dec n m) as [<- | Hne].
    + by rewrite Hbit.
    + rewrite Z.pow2_bits_false by lia. apply andb_false_r.
Qed.

(** C5 (Load Accumulator).  With resolved operand [v], a byte, [LDA] makes
    A equal to [v], Negative equal to bit 7 of [v] and Zero equal to
    [v == 0]; every other bit of the status register, X, Y, S, PC and the
    rest of the CPU are as before.  So 0x00 gives Zero set and Negative
    clear, 0x80 gives Negative set and Zero clear, 0x01 gives both clear. *)
Theorem LDA_semantics {B : Type} (c : CPU.t B) (v : Z) :
  is_uint8 v -> CPU.operand_ c = v ->
  CPU.a_ (CPU.LDA c) = v /\
  CPUStatus.Get Negative (CPU.p_ (CPU.LDA c)) = Z.testbit v 7 /\
  CPUStatus.Get Zero (CPU.p_ (CPU.LDA c)) = (v =? 0) /\
  (forall i, i <> 7 -> i <> 1 ->
     Z.testbit (CPUStatus.flags (CPU.p_ (CPU.LDA c))) i
     = Z.testbit (CPUStatus.flags (CPU.p_ c)) i) /\
  (forall flag, flag <> Negative -> flag <> Zero ->
     CPUStatus.Get flag (CPU.p_ (CPU.LDA c)) = CPUStatus.Get flag (CPU.p_ c)) /\
  (CPU.x_ (CPU.LDA c) = CPU.x_ c /\ CPU.y_ (CPU.LDA c) = CPU.y_ c /\
   CPU.s_ (CPU.LDA c) = CPU.s_ c /\ CPU.pc_ (CPU.LDA c) = CPU.pc_ c) /\
  (CPU.cpu_bus_ (CPU.LDA c) = CPU.cpu_bus_ c /\
   CPU.opcode_ (CPU.LDA c) = CPU.opcode_ c /\
   CPU.operand_ (CPU.LDA c) = CPU.operand_ c /\
   CPU.remaining_cycles_ (CPU.LDA c) = CPU.remaining_cycles_ c /\
   CPU.operations_ (CPU.LDA c) = CPU.operations_ c) /\
  (v = 0x00 -> CPUStatus.Get Zero (CPU.p_ (CPU.LDA c)) = true /\
               CPUStatus.Get Negative (CPU.p_ (CPU.LDA c)) = false) /\
  (v = 0x80 -> CPUStatus.Get Negative (CPU.p_ (CPU.LDA c)) = true /\
               CPUStatus.Get Zero (CPU.p_ (CPU.LDA c)) = false) /\
  (v = 0x01 -> CPUStatus.Get Negative (CPU.p_ (CPU.LDA c)) = false /\
               CPUStatus.Get Zero (CPU.p_ (CPU.LDA c)) = false).
Proof.
  intros _ Hop.
  assert (HN : CPUStatus.Get Negative (CPU.p_ (CPU.LDA c)) = Z.testbit v 7).
  { unfold CPU.LDA. cbn [CPU.p_ CPU.a_ CPU.with_a CPU.with_p].
    rewrite !Get_Set_. cbn [flag_position]. rewrite Hop.
    change (1 =? 7) with false. change (7 =? 7) with true. cbv iota.
    change 0x80 with (2 ^ 7). apply land_bit_test. lia. }
  assert (HZ : CPUStatus.Get Zero (CPU.p_ (CPU.LDA c)) = (v =? 0)).
  { unfold CPU.LDA. cbn [CPU.p_ CPU.a_ CPU.with_a CPU.with_p].
    rewrite Get_Set_. cbn [flag_position]. by rewrite Hop. }
  assert (Hbits : forall i, i <> 7 -> i <> 1 ->
            Z.testbit (CPUStatus.flags (CPU.p_ (CPU.LDA c))) i
            = Z.testbit (CPUStatus.flags (CPU.p_ c)) i).
  { intros i H7 H1. unfold CPU.LDA. cbn [CPU.p_ CPU.a_ CPU.with_a CPU.with_p].
    rewrite !testbit_Set_. cbn [flag_position].
    destruct (Z.eqb_spec 1 i); [lia |]. destruct (Z.eqb_spec 7 i); [lia | done]. }
  split; [exact Hop |]. split; [exact HN |]. split; [exact HZ |].
  split; [exact Hbits |]. split.
  { intros flag HfN HfZ. unfold CPUStatus.Get. apply Hbits.
    - intros Heq. apply HfN. by apply flag_position_inj.
    - intros Heq. apply HfZ. by apply flag_position_inj. }
  split; [done |]. split; [done |].
  rewrite HN, HZ. split; [| split]; intros ->; split; reflexivity.
Qed.

Lemma LDA_semantics_witness :
  let c := CPU.with_operand 0x80 (power_on CPUBus.CPUBus) in
  CPU.a_ (CPU.LDA c) = 0x80 /\
  CPUStatus.Get Negative (CPU.p_ (CPU.LDA c)) = true /\
  CPUStatus.Get Zero (CPU.p_ (CPU.LDA c)) = false.
Proof.
  intros c.
  destruct (LDA_semantics c 0x80) as (Ha & HN & HZ & _).
  - unfold is_uint8. lia.
  - reflexivity.
  - split; [exact Ha |]. split; [exact HN | exact HZ].
Defined.

(** * The fetch/decode/execute engine *)

Section Engine.
Context {B : Type} `{!Bus.Bus B}.
Implicit Types (c : CPU.t B) (cerr : list string).

Lemma int_add_in_range (x y : Z) cerr :
  is_int (x + y) -> int_add x y cerr = Done (x + y) cerr.
Proof.
  unfold is_int, int_add. intros [Hlo Hhi].
  destruct (Z.leb_spec INT_MIN (x + y)); [| lia].
  destruct (Z.leb_spec (x + y) INT_MAX); [done | lia].
Qed.

Lemma int_sub_in_range (x y : Z) cerr :
  is_int (x - y) -> int_sub x y cerr = Done (x - y) cerr.
Proof.
  unfold is_int, int_sub. intros [Hlo Hhi].
  destruct (Z.leb_spec INT_MIN (x - y)); [| lia].
  destruct (Z.leb_spec (x - y) INT_MAX); [done | lia].
Qed.

Lemma with_remaining_cycles_same c :
  CPU.with_remaining_cycles (CPU.remaining_cycles_ c) c = c.
Proof. by destruct c. Qed.

(* Mid-instruction: the call only counts one cycle down. *)
Lemma Clock_mid_instruction c cerr :
  CPU.remaining_cycles_ c <> 0 -> is_int (CPU.remaining_cycles_ c - 1) ->
  CPU.Clock c cerr
  = Done (CPU.with_remaining_cycles (CPU.remaining_cycles_ c - 1) c) cerr.
Proof.
  intros Hrc Hint. unfold CPU.Clock.
  destruct (Z.eqb_spec (CPU.remaining_cycles_ c) 0) as [| _]; [done |].
  unfold bind at 1. unfold ret at 1. unfold bind.
  by rewrite int_sub_in_range.
Qed.

Lemma Clock_n_mid_instruction (k : nat) c cerr :
  Z.of_nat k <= CPU.remaining_cycles_ c <= INT_MAX ->
  CPU.Clock_n k c cerr
  = Done (CPU.with_remaining_cycles (CPU.remaining_cycles_ c - Z.of_nat k) c) cerr.
Proof.
  revert c. induction k as [| k IH]; intros c Hk.
  - simpl. rewrite Z.sub_0_r, with_remaining_cycles_same. done.
  - cbn [CPU.Clock_n]. unfold bind.
    rewrite Clock_mid_instruction by (unfold is_int, INT_MIN, INT_MAX in *; lia).
    rewrite IH by (cbn [CPU.remaining_cycles_ CPU.with_remaining_cycles]; lia).
    f_equal. destruct c. unfold CPU.with_remaining_cycles. cbn. f_equal. lia.
Qed.


Lemma CPU_Read_returns (a v : Z) (bus' : B) c cerr cerr' :
  Bus.Read a (CPU.cpu_bus_ c) cerr = Done (v, bus') cerr' ->
  CPU.Read a c cerr = Done (v, CPU.with_cpu_bus bus' c) cerr'.
Proof. intros HR. unfold CPU.Read, bind. by rewrite HR. Qed.

(* Idle, with an implemented opcode at PC: fetch, decode, execute. *)
Lemma Clock_executes_LDA (op v n : Z) (bus1 bus2 : B) c cerr cerr1 cerr2 :
  CPU.remaining_cycles_ c = 0 ->
  Bus.Read (CPU.pc_ c) (CPU.cpu_bus_ c) cerr = Done (op, bus1) cerr1 ->
  CPU.operations_ c !! op
  = Some {| CPU.addressingMode := Immediate; CPU.operation := Some CPU.op_LDA;
            CPU.cycleCount := n |} ->
  Bus.Read (to_uint16 (CPU.pc_ c + 1)) bus1 cerr1 = Done (v, bus2) cerr2 ->
  INT_MIN < n <= INT_MAX ->
  CPU.Clock c cerr = Done (after_LDA op v n bus2 c) cerr2.
Proof.
  intros Hrc Hop Hentry Hv Hn. unfold CPU.Clock. rewrite Hrc. cbn [Z.eqb].
  unfold CPU.Read_pc_incr.
  unfold bind at 1. unfold bind at 1.
  rewrite (CPU_Read_returns _ op bus1 _ cerr cerr1) by exact Hop.
  unfold CPU.operations_index.
  cbn [CPU.opcode_ CPU.operations_ CPU.with_opcode CPU.with_cpu_bus CPU.with_pc].
  rewrite Hentry. cbn [CPU.addressingMode CPU.operation CPU.cycleCount CPU.FetchOperand].
  unfold CPU.Read_pc_incr. unfold bind at 1.
  rewrite (CPU_Read_returns _ v bus2 _ cerr1 cerr2) by exact Hv.
  unfold bind, CPU.call, ret.
  rewrite int_add_in_range
    by (unfold CPU.LDA; cbn; rewrite Hrc; unfold is_int, INT_MIN, INT_MAX in *; lia).
  rewrite int_sub_in_range
    by (unfold CPU.LDA; cbn; rewrite Hrc; unfold is_int, INT_MIN, INT_MAX in *; lia).
  f_equal. unfold CPU.LDA, after_LDA. cbn. rewrite Hrc. f_equal. 
Qed.

(* Idle, with an opcode that has no entry: operator[] supplies a zeroed
   entry, the operand byte is consumed, and the null operation is called. *)
Lemma Clock_unimplemented_opcode (op v : Z) (bus1 bus2 : B) c cerr cerr1 cerr2 :
  CPU.remaining_cycles_ c = 0 ->
  Bus.Read (CPU.pc_ c) (CPU.cpu_bus_ c) cerr = Done (op, bus1) cerr1 ->
  CPU.operations_ c !! op = None ->
  Bus.Read (to_uint16 (CPU.pc_ c + 1)) bus1 cerr1 = Done (v, bus2) cerr2 ->
  CPU.Clock c cerr = Faulted null_member_call.
Proof.
  intros Hrc Hop Hentry Hv. unfold CPU.Clock. rewrite Hrc. cbn [Z.eqb].
  unfold CPU.Read_pc_incr.
  unfold bind at 1. unfold bind at 1.
  rewrite (CPU_Read_returns _ op bus1 _ cerr cerr1) by exact Hop.
  unfold CPU.operations_index.
  cbn [CPU.opcode_ CPU.operations_ CPU.with_opcode CPU.with_cpu_bus CPU.with_pc].
  rewrite Hentry.
  cbn [CPU.addressingMode CPU.operation CPU.cycleCount CPU.FetchOperand CPU.OpcodeEntry_zero].
  unfold CPU.Read_pc_incr. unfold bind at 1.
  rewrite (CPU_Read_returns _ v bus2 _ cerr1 cerr2) by exact Hv.
  reflexivity.
Qed.


Lemma bind_Done {X Y : Type} (m : Eff X) (k : X -> Eff Y) cerr (y : Y) cerr' :
  bind m k cerr = Done y cerr' ->
  exists x cerr1, m cerr = Done x cerr1 /\ k x cerr1 = Done y cerr'.
Proof.
  unfold bind. destruct (m cerr) as [x cerr1 | f]; [| discriminate].
  intros Hk. by exists x, cerr1.
Qed.

Lemma CPU_Read_Done (a v : Z) c c' cerr cerr' :
  CPU.Read a c cerr = Done (v, c') cerr' ->
  exists bus', Bus.Read a (CPU.cpu_bus_ c) cerr = Done (v, bus') cerr' /\
               c' = CPU.with_cpu_bus bus' c.
Proof.
  unfold CPU.Read. intros HR.
  apply bind_Done in HR as ([v0 bus'] & cerr1 & HB & Hret).
  injection Hret as -> <- <-. by exists bus'.
Qed.

Lemma Read_pc_incr_Done (v : Z) c c' cerr cerr' :
  CPU.Read_pc_incr c cerr = Done (v, c') cerr' ->
  CPU.pc_ c' = to_uint16 (CPU.pc_ c + 1).
Proof.
  unfold CPU.Read_pc_incr. intros HR.
  apply CPU_Read_Done in HR as (bus' & _ & ->). reflexivity.
Qed.

Lemma operations_index_pc (key : Z) c :
  CPU.pc_ (CPU.operations_index key c).2 = CPU.pc_ c.
Proof. unfold CPU.operations_index. by destruct (CPU.operations_ c !! key). Qed.

Lemma call_Done_pc (operation : option CPU.Operation) c c' cerr cerr' :
  CPU.call operation c cerr = Done c' cerr' -> CPU.pc_ c' = CPU.pc_ c.
Proof.
  destruct operation as [[] |]; [| discriminate].
  unfold CPU.call, ret. by intros [= <- _].
Qed.

(* Idle: a call that returns has consumed the opcode byte and the operand
   byte, so the program counter has moved on by two. *)
Lemma Clock_idle_advances_pc c c' cerr cerr' :
  CPU.remaining_cycles_ c = 0 ->
  CPU.Clock c cerr = Done c' cerr' ->
  CPU.pc_ c' = to_uint16 (to_uint16 (CPU.pc_ c + 1) + 1).
Proof.
  intros Hrc HC. unfold CPU.Clock in HC. rewrite Hrc in HC. cbn [Z.eqb] in HC.
  apply bind_Done in HC as (c5 & cerr5 & Hfetch & Hdec).
  apply bind_Done in Hdec as (n' & cerr6 & _ & [= <- _]).
  apply bind_Done in Hfetch as ([opcode c1] & cerr1 & Hop & Hrest).
  apply Read_pc_incr_Done in Hop.
  pose proof (operations_index_pc (CPU.opcode_ (CPU.with_opcode opcode c1))
                (CPU.with_opcode opcode c1)) as Hidx.
  destruct (CPU.operations_index _ _) as [[[] oper n] c2].
  cbn [snd CPU.pc_ CPU.with_opcode] in Hidx.
  apply bind_Done in Hrest as ([operand c3] & cerr3 & Hoperand & Hrest).
  apply Read_pc_incr_Done in Hoperand.
  apply bind_Done in Hrest as (c4 & cerr4 & Hcall & Hrest).
  apply call_Done_pc in Hcall.
  apply bind_Done in Hrest as (n'' & cerr7 & _ & [= <- _]).
  cbn [CPU.pc_ CPU.with_remaining_cycles CPU.with_operand] in *.
  congruence.
Qed.

Lemma pc_two_steps_differs (pc : Z) : to_uint16 (to_uint16 (pc + 1) + 1) <> pc.
Proof.
  unfold to_uint16. change (2 ^ 16) with 65536.
  pose proof (Z.mod_pos_bound (pc + 1) 65536 ltac:(lia)) as H1.
  pose proof (Z.mod_pos_bound ((pc + 1) mod 65536 + 1) 65536 ltac:(lia)) as H2.
  intros Heq.
  assert (Hpc : 0 <= pc < 65536) by lia.
  destruct (Z.eq_dec pc 65535) as [-> | Hne]; [discriminate Heq |].
  rewrite (Z.mod_small (pc + 1)) in Heq by lia.
  destruct (Z.eq_dec pc 65534) as [-> | Hne']; [discriminate Heq |].
  rewrite Z.mod_small in Heq by lia. lia.
Qed.

(* Idle: the call is never a mere count-down. *)
Lemma Clock_idle_fetches c cerr :
  CPU.remaining_cycles_ c = 0 -> ~ refuses_fetch c cerr.
Proof.
  intros Hrc [cycles HC].
  apply Clock_idle_advances_pc in HC; [| exact Hrc].
  cbn [CPU.pc_ CPU.with_remaining_cycles] in HC.
  symmetry in HC. by apply pc_two_steps_differs in HC.
Qed.

Lemma Clock_mid_instruction_refuses c cerr :
  CPU.remaining_cycles_ c <> 0 -> is_int (CPU.remaining_cycles_ c - 1) ->
  refuses_fetch c cerr.
Proof.
  intros Hrc Hint. eexists. by apply Clock_mid_instruction.
Qed.

End Engine.

(** ** Cycle accounting *)

(** C1 (cycle accounting), as the code has it.  A Clock call refuses to
    fetch exactly when the pending-cycle counter is not zero.  When an idle
    engine executes an instruction whose entry has base cycle count [n]
    (at least 1), the call leaves [n - 1] cycles pending: the next [n - 1]
    Clock calls refuse to fetch, each only counting down by one, and the
    [n]-th call after the instruction finds the counter at zero and
    fetches. *)
Theorem Clock_cycle_accounting {B : Type} `{!Bus.Bus B}
    (op v n : Z) (bus1 bus2 : B) (c : CPU.t B) (cerr cerr1 cerr2 : list string) :
  CPU.remaining_cycles_ c = 0 ->
  Bus.Read (CPU.pc_ c) (CPU.cpu_bus_ c) cerr = Done (op, bus1) cerr1 ->
  CPU.operations_ c !! op
  = Some {| CPU.addressingMode := Immediate; CPU.operation := Some CPU.op_LDA;
            CPU.cycleCount := n |} ->
  Bus.Read (to_uint16 (CPU.pc_ c + 1)) bus1 cerr1 = Done (v, bus2) cerr2 ->
  1 <= n <= INT_MAX ->
  (forall (c' : CPU.t B) cerr',
     is_int (CPU.remaining_cycles_ c' - 1) ->
     (refuses_fetch c' cerr' <-> CPU.remaining_cycles_ c' <> 0)) /\
  exists c1,
    CPU.Clock c cerr = Done c1 cerr2 /\
    CPU.remaining_cycles_ c1 = n - 1 /\
    refuses_for (Z.to_nat (n - 1)) c1 cerr2 /\
    fetches_after (Z.to_nat (n - 1)) c1 cerr2.
Proof.
  intros Hrc Hop Hentry Hv Hn. split.
  { intros c' cerr' Hint. split.
    - intros Href Hz. by apply (Clock_idle_fetches c' cerr' Hz).
    - intros Hnz. by apply Clock_mid_instruction_refuses. }
  exists (after_LDA op v n bus2 c).
  split; [apply (Clock_executes_LDA op v n bus1 bus2 c cerr cerr1 cerr2); try done;
          unfold INT_MIN, INT_MAX in *; lia |].
  split; [reflexivity |]. split.
  - intros k Hk. eexists. split.
    + apply Clock_n_mid_instruction. cbn [CPU.remaining_cycles_ after_LDA]. lia.
    + apply Clock_mid_instruction_refuses;
        cbn [CPU.remaining_cycles_ CPU.with_remaining_cycles after_LDA];
        unfold is_int, INT_MIN, INT_MAX in *; lia.
  - eexists. split; [| split; [| split]].
    + apply Clock_n_mid_instruction. cbn [CPU.remaining_cycles_ after_LDA]. lia.
    + cbn [CPU.remaining_cycles_ CPU.with_remaining_cycles after_LDA]. lia.
    + apply Clock_idle_fetches.
      cbn [CPU.remaining_cycles_ CPU.with_remaining_cycles after_LDA]. lia.
    + intros c' cerr'. apply Clock_idle_advances_pc.
      cbn [CPU.remaining_cycles_ CPU.with_remaining_cycles after_LDA]. lia.
Qed.

Lemma Clock_cycle_accounting_witness :
  exists c1,
    CPU.Clock (power_on (bus_with_program [0xA9; 0x01; 0xA9; 0x02])) [] = Done c1 [] /\
    CPU.remaining_cycles_ c1 = 2 - 1 /\
    refuses_for (Z.to_nat (2 - 1)) c1 [] /\
    fetches_after (Z.to_nat (2 - 1)) c1 [].
Proof.
  apply (Clock_cycle_accounting 0xA9 0x01 2
           (bus_with_program [0xA9; 0x01; 0xA9; 0x02])
           (bus_with_program [0xA9; 0x01; 0xA9; 0x02])
           (power_on (bus_with_program [0xA9; 0x01; 0xA9; 0x02])) [] [] []).
  - reflexivity.
  - vm_compute. reflexivity.
  - vm_compute. reflexivity.
  - vm_compute. reflexivity.
  - unfold INT_MAX. lia.
Defined.

(** C1 as stated fails.  LDA has base cycle count 2, yet of the two Clock
    calls that follow its execution only the first refuses to fetch: the
    second one fetches and executes the next instruction. *)
Lemma Clock_cycle_accounting_counterexample :
  exists c1 c3,
    CPU.operations_ (power_on (bus_with_program [0xA9; 0x01; 0xA9; 0x02])) !! 0xA9
    = Some {| CPU.addressingMode := Immediate; CPU.operation := Some CPU.op_LDA;
              CPU.cycleCount := 2 |} /\
    CPU.Clock (power_on (bus_with_program [0xA9; 0x01; 0xA9; 0x02])) [] = Done c1 [] /\
    CPU.a_ c1 = 0x01 /\ CPU.pc_ c1 = 0x0002 /\
    ~ refuses_for 2 c1 [] /\
    CPU.Clock_n 2 c1 [] = Done c3 [] /\
    CPU.a_ c3 = 0x02 /\ CPU.pc_ c3 = 0x0004.
Proof.
  exists (after_LDA 0xA9 0x01 2 (bus_with_program [0xA9; 0x01; 0xA9; 0x02])
            (power_on (bus_with_program [0xA9; 0x01; 0xA9; 0x02]))).
  eexists.
  split; [vm_compute; reflexivity |]. split; [vm_compute; reflexivity |].
  split; [reflexivity |]. split; [reflexivity |]. split; [| split; [| split]].
  - intros Hall. destruct (Hall 1%nat ltac:(lia)) as (ck & Hck & Href).
    rewrite Clock_n_mid_instruction in Hck
      by (cbn [CPU.remaining_cycles_ after_LDA]; unfold INT_MAX; lia).
    injection Hck as <-. revert Href. apply Clock_idle_fetches. reflexivity.
  - vm_compute. reflexivity.
  - reflexivity.
  - reflexivity.
Qed.

(** ** Opcodes without an entry *)

(** C3 (unimplemented opcode), at a failing input.  A new CPU on a new bus
    is idle and finds opcode 0x00 at address 0x0000.  The opcode has no
    entry, so the table lookup yields a zeroed entry whose operation is the
    null pointer to member; Clock reads an operand byte and then calls
    through that pointer.  Nothing is reported and the call does not
    return. *)
Theorem Clock_unimplemented_opcode_faults :
  CPU.CPU (Some CPUBus.CPUBus) [] = Done (power_on CPUBus.CPUBus) [] /\
  CPU.remaining_cycles_ (power_on CPUBus.CPUBus) = 0 /\
  CPUBus.Read 0x0000 CPUBus.CPUBus [] = Done (0x00, CPUBus.CPUBus) [] /\
  CPU.operations_ (power_on CPUBus.CPUBus) !! 0x00 = None /\
  CPU.Clock (power_on CPUBus.CPUBus) [] = Faulted null_member_call.
Proof.
  split; [reflexivity |]. split; [reflexivity |].
  split; [vm_compute; reflexivity |]. split; [vm_compute; reflexivity |].
  apply (Clock_unimplemented_opcode 0x00 0x00 CPUBus.CPUBus CPUBus.CPUBus
           (power_on CPUBus.CPUBus) [] [] []); vm_compute; reflexivity.
Qed.

(** ** Construction and reset *)

Lemma uint8_high_bits (x m : Z) : is_uint8 x -> 8 <= m -> Z.testbit x m = false.
Proof.
  unfold is_uint8. intros Hx Hm.
  destruct (Z.eq_dec x 0) as [-> | Hnz]; [apply Z.bits_0 |].
  apply Z.bits_above_log2; [lia |].
  assert (Z.log2 x < 8) by (apply Z.log2_lt_pow2; lia). lia.
Qed.

(* hi << 8 | lo of two bytes fits 16 bits: the narrowing to uint16_t keeps it. *)
Lemma vector_fits_uint16 (lo hi : Z) :
  is_uint8 lo -> is_uint8 hi ->
  to_uint16 (Z.lor (Z.shiftl hi BITS_PER_BYTE) lo) = Z.lor (Z.shiftl hi 8) lo.
Proof.
  intros Hlo Hhi. unfold to_uint16, BITS_PER_BYTE.
  apply Z.bits_inj'. intros m Hm.
  destruct (Z.lt_ge_cases m 16) as [Hlt | Hge].
  - by rewrite Z.mod_pow2_bits_low.
  - rewrite Z.mod_pow2_bits_high by lia.
    rewrite Z.lor_spec, Z.shiftl_spec by lia.
    rewrite (uint8_high_bits hi) by (done || lia).
    by rewrite (uint8_high_bits lo) by (done || lia).
Qed.

Lemma Reset_returns {B : Type} `{!Bus.Bus B}
    (c : CPU.t B) (lo hi : Z) (bus1 bus2 : B) (cerr cerr1 cerr2 : list string) :
  Bus.Read 0xFFFC (CPU.cpu_bus_ c) cerr = Done (lo, bus1) cerr1 ->
  Bus.Read 0xFFFD bus1 cerr1 = Done (hi, bus2) cerr2 ->
  is_int (CPU.remaining_cycles_ c + 7) ->
  CPU.Reset c cerr
  = Done {| CPU.cpu_bus_ := bus2; CPU.a_ := 0x00; CPU.x_ := 0x00; CPU.y_ := 0x00;
            CPU.pc_ := to_uint16 (Z.lor (Z.shiftl hi BITS_PER_BYTE) lo);
            CPU.s_ := STACK_POINTER_DEFAULT; CPU.p_ := CPUStatus.FromByte 0x00;
            CPU.opcode_ := CPU.opcode_ c; CPU.operand_ := CPU.operand_ c;
            CPU.remaining_cycles_ := CPU.remaining_cycles_ c + 7;
            CPU.operations_ := CPU.operations_ c |} cerr2.
Proof.
  intros Hlo Hhi Hint. unfold CPU.Reset.
  unfold bind at 1.
  rewrite (CPU_Read_returns RESET_VECTOR_LOW_BYTE lo bus1 _ cerr cerr1) by exact Hlo.
  unfold bind at 1.
  rewrite (CPU_Read_returns _ hi bus2 _ cerr1 cerr2) by exact Hhi.
  unfold bind.
  rewrite int_add_in_range by exact Hint.
  reflexivity.
Qed.

(** C4 (reset), as the code has it.  Whatever the bus holds, Reset makes A,
    X and Y zero, S 0xFF and every status bit clear, loads PC with
    [hi << 8 | lo] where [lo] and [hi] are the bytes the bus returns at
    0xFFFC and 0xFFFD, and adds 7 to the pending cycles.  On the CPUBus
    both addresses lie outside the RAM window: bytes written there are
    dropped and both reads return 0, so writing [lo0] and [hi0] there and
    resetting gives PC 0x0000. *)
Theorem Reset_semantics {B : Type} `{!Bus.Bus B}
    (c : CPU.t B) (lo hi : Z) (bus1 bus2 : B) (cerr cerr1 cerr2 : list string) :
  Bus.Read 0xFFFC (CPU.cpu_bus_ c) cerr = Done (lo, bus1) cerr1 ->
  Bus.Read 0xFFFD bus1 cerr1 = Done (hi, bus2) cerr2 ->
  is_uint8 lo -> is_uint8 hi ->
  is_int (CPU.remaining_cycles_ c + 7) ->
  (exists c',
     CPU.Reset c cerr = Done c' cerr2 /\
     CPU.a_ c' = 0 /\ CPU.x_ c' = 0 /\ CPU.y_ c' = 0 /\ CPU.s_ c' = 0xFF /\
     (forall i, Z.testbit (CPUStatus.flags (CPU.p_ c')) i = false) /\
     (forall flag, CPUStatus.Get flag (CPU.p_ c') = false) /\
     CPU.pc_ c' = Z.lor (Z.shiftl hi 8) lo /\
     CPU.remaining_cycles_ c' = CPU.remaining_cycles_ c + 7 /\
     CPU.cpu_bus_ c' = bus2) /\
  (forall (c0 : CPU.t CPUBus.t) (lo0 hi0 : Z) (cerr0 : list string),
     is_int (CPU.remaining_cycles_ c0 + 7) ->
     exists c' cerr',
       (let* bus := CPUBus.Write 0xFFFC lo0 (CPU.cpu_bus_ c0) in
        let* bus := CPUBus.Write 0xFFFD hi0 bus in
        CPU.Reset (CPU.with_cpu_bus bus c0)) cerr0 = Done c' cerr' /\
       CPU.pc_ c' = 0x0000 /\
       CPU.cpu_bus_ c' = CPU.cpu_bus_ c0 /\
       CPU.remaining_cycles_ c' = CPU.remaining_cycles_ c0 + 7).
Proof.
  intros Hlo Hhi Hlo8 Hhi8 Hint. split.
  - eexists. split; [by apply (Reset_returns c lo hi bus1 bus2 cerr cerr1 cerr2) |].
    cbn [CPU.a_ CPU.x_ CPU.y_ CPU.s_ CPU.p_ CPU.pc_ CPU.remaining_cycles_ CPU.cpu_bus_].
    repeat (split; [reflexivity |]).
    split; [intros i; apply Z.bits_0 |].
    split; [intros flag; apply Z.bits_0 |].
    split; [by apply vector_fits_uint16 |]. done.
  - intros c0 lo0 hi0 cerr0 Hint0.
    eexists _, _. split.
    + unfold bind at 1. rewrite Write_outside_window by lia.
      unfold bind at 1. rewrite Write_outside_window by lia.
      eapply (Reset_returns _ 0 0 (CPU.cpu_bus_ c0) (CPU.cpu_bus_ c0)).
      * apply Read_outside_window. lia.
      * apply Read_outside_window. lia.
      * exact Hint0.
    + cbn [CPU.pc_ CPU.cpu_bus_ CPU.remaining_cycles_ CPU.with_cpu_bus]. done.
Qed.

Lemma Reset_semantics_witness :
  exists c',
    CPU.Reset (power_on CPUBus.CPUBus) [] = Done c' (reported (reported [])) /\
    CPU.a_ c' = 0 /\ CPU.x_ c' = 0 /\ CPU.y_ c' = 0 /\ CPU.s_ c' = 0xFF /\
    (forall i, Z.testbit (CPUStatus.flags (CPU.p_ c')) i = false) /\
    (forall flag, CPUStatus.Get flag (CPU.p_ c') = false) /\
    CPU.pc_ c' = Z.lor (Z.shiftl 0x00 8) 0x00 /\
    CPU.remaining_cycles_ c' = CPU.remaining_cycles_ (power_on CPUBus.CPUBus) + 7 /\
    CPU.cpu_bus_ c' = CPUBus.CPUBus.
Proof.
  apply (Reset_semantics (power_on CPUBus.CPUBus) 0x00 0x00 CPUBus.CPUBus CPUBus.CPUBus
           [] (reported []) (reported (reported []))).
  - vm_compute. reflexivity.
  - vm_compute. reflexivity.
  - unfold is_uint8. lia.
  - unfold is_uint8. lia.
  - unfold is_int, INT_MIN, INT_MAX. simpl. lia.
Defined.

(** C4 as stated fails on its last clause.  0x34 written at 0xFFFC and 0x12
    at 0xFFFD through the CPUBus, then Reset: PC is 0x0000, not 0x1234. *)
Lemma Reset_semantics_counterexample :
  exists c' cerr',
    (let* bus := CPUBus.Write 0xFFFC 0x34 CPUBus.CPUBus in
     let* bus := CPUBus.Write 0xFFFD 0x12 bus in
     let* c := CPU.CPU (Some bus) in
     CPU.Reset c) [] = Done c' cerr' /\
    CPU.pc_ c' = 0x0000 /\
    CPU.pc_ c' <> Z.lor (Z.shiftl 0x12 8) 0x34.
Proof.
  eexists _, _. split; [vm_compute; reflexivity |].
  split; [reflexivity |]. cbn [CPU.pc_]. discriminate.
Qed.

(** C10 (a CPU just constructed).  The constructor returns a CPU bound to
    the bus with A, X, Y and PC zero, S 0xFF, every status bit clear, no
    pending cycle and the one-entry opcode table.  Clock is not refused in
    that state: the counter being zero it fetches at address 0x0000.  When
    the bus returns 0xA9 there and [v] at 0x0001 the call returns with that
    opcode fetched, A equal to [v] and PC at 0x0002; when the read of
    address 0x0000 fails, so does the call. *)
Theorem CPU_constructed {B : Type} `{!Bus.Bus B} (bus : B) (cerr : list string) :
  exists c,
    CPU.CPU (Some bus) cerr = Done c cerr /\
    CPU.a_ c = 0 /\ CPU.x_ c = 0 /\ CPU.y_ c = 0 /\
    CPU.pc_ c = 0x0000 /\ CPU.s_ c = 0xFF /\
    (forall i, Z.testbit (CPUStatus.flags (CPU.p_ c)) i = false) /\
    (forall flag, CPUStatus.Get flag (CPU.p_ c) = false) /\
    CPU.remaining_cycles_ c = 0 /\
    CPU.cpu_bus_ c = bus /\
    CPU.operations_ c
    = {[ 0xA9 := {| CPU.addressingMode := Immediate; CPU.operation := Some CPU.op_LDA;
                    CPU.cycleCount := 2 |} ]} /\
    ~ refuses_fetch c cerr /\
    (forall (v : Z) (bus1 bus2 : B) (cerr1 cerr2 : list string),
       Bus.Read 0x0000 bus cerr = Done (0xA9, bus1) cerr1 ->
       Bus.Read 0x0001 bus1 cerr1 = Done (v, bus2) cerr2 ->
       exists c',
         CPU.Clock c cerr = Done c' cerr2 /\
         CPU.opcode_ c' = 0xA9 /\ CPU.a_ c' = v /\
         CPU.pc_ c' = 0x0002 /\ CPU.remaining_cycles_ c' = 1) /\
    (forall (f : Fault),
       Bus.Read 0x0000 bus cerr = Faulted f -> CPU.Clock c cerr = Faulted f).
Proof.
  exists (power_on bus). split; [reflexivity |].
  do 5 (split; [reflexivity |]).
  split; [intros i; apply Z.bits_0 |].
  split; [intros flag; apply Z.bits_0 |].
  do 3 (split; [reflexivity |]).
  split; [by apply Clock_idle_fetches |]. split.
  - intros v bus1 bus2 cerr1 cerr2 Hop Hv.
    exists (after_LDA 0xA9 v 2 bus2 (power_on bus)). split.
    + apply (Clock_executes_LDA 0xA9 v 2 bus1 bus2 (power_on bus) cerr cerr1 cerr2).
      * reflexivity.
      * exact Hop.
      * cbn [CPU.operations_ power_on]. apply lookup_singleton_eq.
      * exact Hv.
      * unfold INT_MIN, INT_MAX. lia.
    + repeat split.
  - intros f Hf. unfold CPU.Clock, CPU.Read_pc_incr, CPU.Read, bind.
    cbn [CPU.remaining_cycles_ CPU.pc_ CPU.cpu_bus_ CPU.with_pc power_on Z.eqb].
    by rewrite Hf.
Qed.

Lemma CPU_constructed_witness :
  exists c c',
    CPU.CPU (Some (bus_with_program [0xA9; 0x80])) [] = Done c [] /\
    CPU.Clock c [] = Done c' [] /\
    CPU.opcode_ c' = 0xA9 /\ CPU.a_ c' = 0x80 /\
    CPU.pc_ c' = 0x0002 /\ CPU.remaining_cycles_ c' = 1.
Proof.
  destruct (CPU_constructed (bus_with_program [0xA9; 0x80]) [])
    as (c & Hc & _ & _ & _ & _ & _ & _ & _ & _ & _ & _ & _ & Hclock & _).
  destruct (Hclock 0x80 (bus_with_program [0xA9; 0x80]) (bus_with_program [0xA9; 0x80])
              [] []) as (c' & HC & Hrest).
  - vm_compute. reflexivity.
  - vm_compute. reflexivity.
  - exists c, c'. split; [exact Hc |]. split; [exact HC | exact Hrest].
Defined.

(** * Further properties of the CPU bus *)

Lemma reported_longer (cerr : list string) : reported cerr <> cerr.
Proof.
  unfold reported. intros Heq.
  apply (f_equal length) in Heq. rewrite length_app in Heq. simpl in Heq. lia.
Qed.

Lemma physical_index_lt (bus : CPUBus.t) (a : Z) :
  CPUBus.wf bus ->
  (Z.to_nat (Z.land a CPU_RAM_ADDRESS_MASK) < length (CPUBus.ram_ bus))%nat.
Proof.
  intros [Hlen _]. pose proof (physical_index_bound a) as Hi. lia.
Qed.

(* Read after Write, at an address of the same physical cell. *)
Lemma Read_Write_same_cell (bus : CPUBus.t) (a a' v : Z) (cerr cerr' : list string) :
  CPUBus.wf bus -> 0x0000 <= a <= 0x1FFF -> 0x0000 <= a' <= 0x1FFF ->
  Z.land a' CPU_RAM_ADDRESS_MASK = Z.land a CPU_RAM_ADDRESS_MASK ->
  exists bus',
    CPUBus.Write a v bus cerr = Done bus' (reported cerr) /\
    CPUBus.Read a' bus' cerr' = Done (v, bus') cerr'.
Proof.
  intros Hwf Ha Ha' Hsame. eexists. split; [by apply Write_in_window |].
  unfold CPUBus.Read. rewrite window_test_true by done.
  unfold bind, CPUBus.at_. cbn [CPUBus.ram_]. rewrite Hsame.
  rewrite list_lookup_insert_eq by (by apply physical_index_lt). reflexivity.
Qed.

(* Read after Write, at an address of another physical cell. *)
Lemma Read_Write_other_cell (bus : CPUBus.t) (a a' v r : Z) (cerr cerr' : list string) :
  CPUBus.wf bus -> 0x0000 <= a <= 0x1FFF -> 0x0000 <= a' <= 0x1FFF ->
  Z.land a' CPU_RAM_ADDRESS_MASK <> Z.land a CPU_RAM_ADDRESS_MASK ->
  CPUBus.Read a' bus cerr' = Done (r, bus) cerr' ->
  exists bus',
    CPUBus.Write a v bus cerr = Done bus' (reported cerr) /\
    CPUBus.Read a' bus' cerr' = Done (r, bus') cerr'.
Proof.
  intros Hwf Ha Ha' Hother HR. eexists. split; [by apply Write_in_window |].
  destruct (Read_in_window bus a' cerr' Hwf Ha') as (r' & Hr' & HR').
  rewrite HR' in HR. injection HR as ->.
  unfold CPUBus.Read. rewrite window_test_true by done.
  unfold bind, CPUBus.at_. cbn [CPUBus.ram_].
  rewrite list_lookup_insert_ne.
  - by rewrite Hr'.
  - pose proof (physical_index_bound a). pose proof (physical_index_bound a'). lia.
Qed.

Lemma bus_with_program_wf (l : list Z) :
  Forall is_uint8 l -> Z.of_nat (length l) <= CPU_RAM_SIZE ->
  CPUBus.wf (bus_with_program l).
Proof.
  intros Hl Hlen. unfold CPUBus.wf, bus_with_program. cbn [CPUBus.ram_]. split.
  - rewrite length_app, length_replicate. unfold CPU_RAM_SIZE in *. lia.
  - apply Forall_app. split; [exact Hl |].
    apply Forall_replicate. unfold is_uint8. lia.
Qed.

(** X1 (a write touches one cell).  Inside the RAM window, a Write at [a]
    leaves the byte read at every address [a'] with other low 11 bits as it
    was. *)
Theorem CPUBus_Write_frame (bus : CPUBus.t) (a a' v : Z) (cerr cerr' : list string) :
  CPUBus.wf bus -> 0x0000 <= a <= 0x1FFF -> 0x0000 <= a' <= 0x1FFF ->
  Z.land a' 0x07FF <> Z.land a 0x07FF ->
  exists bus' r,
    CPUBus.Write a v bus cerr = Done bus' (reported cerr) /\
    CPUBus.Read a' bus cerr' = Done (r, bus) cerr' /\
    CPUBus.Read a' bus' cerr' = Done (r, bus') cerr'.
Proof.
  intros Hwf Ha Ha' Hother.
  destruct (Read_in_window bus a' cerr' Hwf Ha') as (r & _ & HR).
  destruct (Read_Write_other_cell bus a a' v r cerr cerr' Hwf Ha Ha' Hother HR)
    as (bus' & HW & HR').
  by exists bus', r.
Qed.

Lemma CPUBus_Write_frame_witness :
  exists bus' r,
    CPUBus.Write 0x0800 0x55 (bus_with_program [0xA9; 0x01]) [] = Done bus' (reported []) /\
    CPUBus.Read 0x0001 (bus_with_program [0xA9; 0x01]) []
    = Done (r, bus_with_program [0xA9; 0x01]) [] /\
    CPUBus.Read 0x0001 bus' [] = Done (r, bus') [].
Proof.
  apply (CPUBus_Write_frame (bus_with_program [0xA9; 0x01]) 0x0800 0x0001 0x55 [] []).
  - apply bus_with_program_wf; [| unfold CPU_RAM_SIZE; simpl; lia].
    repeat constructor; unfold is_uint8; lia.
  - lia.
  - lia.
  - vm_compute. discriminate.
Defined.

(** X2 (writes compose).  Inside the RAM window, of two Writes to addresses
    with the same low 11 bits only the second is kept, and two Writes to
    addresses with different low 11 bits give the same RAM in either
    order. *)
Theorem CPUBus_Write_Write (bus : CPUBus.t) (a a' v v' : Z) (cerr : list string) :
  CPUBus.wf bus -> 0x0000 <= a <= 0x1FFF -> 0x0000 <= a' <= 0x1FFF ->
  is_uint8 v -> is_uint8 v' ->
  exists bus1 bus2,
    (let* b := CPUBus.Write a v bus in CPUBus.Write a' v' b) cerr
    = Done bus1 (reported (reported cerr)) /\
    (let* b := CPUBus.Write a' v' bus in CPUBus.Write a v b) cerr
    = Done bus2 (reported (reported cerr)) /\
    (Z.land a' 0x07FF = Z.land a 0x07FF ->
     CPUBus.Write a' v' bus cerr = Done bus1 (reported cerr)) /\
    (Z.land a' 0x07FF <> Z.land a 0x07FF -> bus1 = bus2).
Proof.
  intros Hwf Ha Ha' Hv Hv'.
  assert (H16 : is_uint16 a /\ is_uint16 a') by (unfold is_uint16; lia).
  destruct H16 as [Ha16 Ha16'].
  pose proof (Write_in_window bus a v cerr Hwf Ha) as HW1.
  pose proof (Write_in_window bus a' v' cerr Hwf Ha') as HW2.
  pose proof (Write_preserves_wf _ _ _ _ _ _ Hwf Hv Ha16 HW1) as Hwf1.
  pose proof (Write_preserves_wf _ _ _ _ _ _ Hwf Hv' Ha16' HW2) as Hwf2.
  eexists _, _. split; [| split; [| split]].
  - unfold bind. rewrite HW1. by apply Write_in_window.
  - unfold bind. rewrite HW2. by apply Write_in_window.
  - intros Hsame. rewrite HW2. cbn [CPUBus.ram_]. f_equal. f_equal.
    change CPU_RAM_ADDRESS_MASK with 0x07FF. rewrite Hsame.
    by rewrite list_insert_insert_eq.
  - intros Hother. cbn [CPUBus.ram_]. f_equal.
    apply list_insert_insert_ne.
    pose proof (physical_index_bound a). pose proof (physical_index_bound a').
    change CPU_RAM_ADDRESS_MASK with 0x07FF in *. lia.
Qed.

Lemma CPUBus_Write_Write_witness :
  exists bus1 bus2,
    (let* b := CPUBus.Write 0x0002 0x11 CPUBus.CPUBus in CPUBus.Write 0x0802 0x22 b) []
    = Done bus1 (reported (reported [])) /\
    (let* b := CPUBus.Write 0x0802 0x22 CPUBus.CPUBus in CPUBus.Write 0x0002 0x11 b) []
    = Done bus2 (reported (reported [])) /\
    (Z.land 0x0802 0x07FF = Z.land 0x0002 0x07FF ->
     CPUBus.Write 0x0802 0x22 CPUBus.CPUBus [] = Done bus1 (reported [])) /\
    (Z.land 0x0802 0x07FF <> Z.land 0x0002 0x07FF -> bus1 = bus2).
Proof.
  apply (CPUBus_Write_Write CPUBus.CPUBus 0x0002 0x0802 0x11 0x22 []).
  - exact CPUBus_default_wf.
  - lia.
  - lia.
  - unfold is_uint8. lia.
  - unfold is_uint8. lia.
Defined.

(** X3 (Read is an observation).  Whenever Read returns, the bus is the one
    it was given and reading again gives the same byte; the diagnostic
    stream is untouched exactly when the address is in the RAM window, and
    otherwise it has the one report and the byte is 0. *)
Theorem CPUBus_Read_observes (bus bus' : CPUBus.t) (a v : Z) (cerr cerr' : list string) :
  CPUBus.Read a bus cerr = Done (v, bus') cerr' ->
  bus' = bus /\
  (cerr' = cerr <-> 0x0000 <= a <= 0x1FFF) /\
  (~ 0x0000 <= a <= 0x1FFF -> v = 0 /\ cerr' = reported cerr) /\
  (forall cerr0, exists cerr1, CPUBus.Read a bus' cerr0 = Done (v, bus') cerr1).
Proof.
  unfold CPUBus.Read. unfold CPU_RAM_MAX_RANGE. rewrite Z.geb_leb.
  destruct (Z.leb_spec 0x0000 a) as [Hlo | Hlo];
    [destruct (Z.leb_spec a 0x1FFF) as [Hhi | Hhi] |]; cbn [andb].
  - unfold bind, CPUBus.at_.
    destruct (CPUBus.ram_ bus !! Z.to_nat (Z.land a CPU_RAM_ADDRESS_MASK)) as [r |] eqn:Hr;
      [| discriminate].
    intros [= -> <- <-]. split; [done |]. split; [split; [lia | done] |].
    split; [lia |].
    intros cerr0. exists cerr0. by rewrite Hr.
  - rewrite put_report. intros [= <- <- <-]. split; [done |].
    split; [split; [intros Heq; by apply reported_longer in Heq | lia] |].
    split; [done |].
    intros cerr0. exists (reported cerr0). by rewrite put_report.
  - rewrite put_report. intros [= <- <- <-]. split; [done |].
    split; [split; [intros Heq; by apply reported_longer in Heq | lia] |].
    split; [done |].
    intros cerr0. exists (reported cerr0). by rewrite put_report.
Qed.

Lemma CPUBus_Read_observes_witness :
  CPUBus.CPUBus = CPUBus.CPUBus /\
  (reported [] = [] <-> 0x0000 <= 0x4020 <= 0x1FFF) /\
  (~ 0x0000 <= 0x4020 <= 0x1FFF -> 0 = 0 /\ reported [] = reported []) /\
  (forall cerr0, exists cerr1,
     CPUBus.Read 0x4020 CPUBus.CPUBus cerr0 = Done (0, CPUBus.CPUBus) cerr1).
Proof.
  apply (CPUBus_Read_observes CPUBus.CPUBus CPUBus.CPUBus 0x4020 0 [] (reported [])).
  vm_compute. reflexivity.
Defined.

(** X4 (a new bus reads zero).  On a newly constructed bus Read returns 0 at
    every address and leaves the bus as it was; inside the RAM window it
    does so without a report. *)
Theorem CPUBus_new_reads_zero (a : Z) (cerr : list string) :
  CPUBus.Read a CPUBus.CPUBus cerr
  = Done (0, CPUBus.CPUBus)
      (if (0x0000 <=? a) && (a <=? 0x1FFF) then cerr else reported cerr).
Proof.
  destruct (Z.leb_spec 0x0000 a) as [Hlo | Hlo];
    [destruct (Z.leb_spec a 0x1FFF) as [Hhi | Hhi] |]; cbn [andb].
  - destruct (Read_in_window CPUBus.CPUBus a cerr CPUBus_default_wf) as (r & Hr & HR);
      [lia |].
    rewrite HR. unfold CPUBus.CPUBus in Hr. cbn [CPUBus.ram_] in Hr.
    apply lookup_replicate_1 in Hr as [-> _]. reflexivity.
  - apply Read_outside_window. lia.
  - unfold CPUBus.Read.
    destruct (Z.geb_spec a 0x0000) as [Hge | Hlt]; [lia |]. cbn [andb].
    by rewrite put_report.
Qed.

(** * Further properties of the status register *)

Lemma uint8_of_bits (x : Z) :
  0 <= x -> (forall i, 8 <= i -> Z.testbit x i = false) -> is_uint8 x.
Proof.
  intros Hx Hbits. split; [exact Hx |].
  destruct (Z.eq_dec x 0) as [-> | Hnz]; [lia |].
  apply Z.log2_lt_pow2; [lia |].
  destruct (Z.lt_ge_cases (Z.log2 x) 8) as [Hlt | Hge]; [exact Hlt |].
  specialize (Hbits (Z.log2 x) Hge).
  rewrite Z.bit_log2 in Hbits by lia. discriminate.
Qed.

Lemma Set__nonneg (flag : CPUStatusFlag) (value : bool) (p : CPUStatus.t) :
  0 <= CPUStatus.flags p -> 0 <= CPUStatus.flags (CPUStatus.Set_ flag value p).
Proof.
  intros Hp. pose proof (flag_position_range flag) as Hpos.
  unfold CPUStatus.Set_. cbn [CPUStatus.flags]. destruct value.
  - unfold Z.setbit. apply Z.lor_nonneg. split; [exact Hp |].
    apply Z.shiftl_nonneg. lia.
  - unfold Z.clearbit. apply Z.ldiff_nonneg. by left.
Qed.

Lemma Set__wf (flag : CPUStatusFlag) (value : bool) (p : CPUStatus.t) :
  CPUStatus.wf p -> CPUStatus.wf (CPUStatus.Set_ flag value p).
Proof.
  unfold CPUStatus.wf. intros Hp.
  apply uint8_of_bits; [apply Set__nonneg; unfold is_uint8 in Hp; lia |].
  intros i Hi. rewrite testbit_Set_.
  pose proof (flag_position_range flag) as Hpos.
  destruct (Z.eqb_spec (flag_position flag) i); [lia |].
  by apply uint8_high_bits.
Qed.

Lemma CPUStatus_eq (p q : CPUStatus.t) :
  (forall i, Z.testbit (CPUStatus.flags p) i = Z.testbit (CPUStatus.flags q) i) ->
  p = q.
Proof.
  destruct p as [x], q as [y]. cbn [CPUStatus.flags]. intros Hbits.
  f_equal. by apply Z.bits_inj.
Qed.

(** X5 (Set then Get).  After [Set flag value] the flag reads [value], every
    other named flag reads as before, and so does every other bit of the
    register. *)
Theorem CPUStatus_Set_then_Get (flag : CPUStatusFlag) (value : bool) (p : CPUStatus.t) :
  CPUStatus.Get flag (CPUStatus.Set_ flag value p) = value /\
  (forall other, other <> flag ->
     CPUStatus.Get other (CPUStatus.Set_ flag value p) = CPUStatus.Get other p) /\
  (forall i, i <> flag_position flag ->
     Z.testbit (CPUStatus.flags (CPUStatus.Set_ flag value p)) i
     = Z.testbit (CPUStatus.flags p) i).
Proof.
  split; [| split].
  - rewrite Get_Set_. by rewrite Z.eqb_refl.
  - intros other Hne. rewrite Get_Set_.
    destruct (Z.eqb_spec (flag_position flag) (flag_position other)) as [Heq | _];
      [| done].
    apply flag_position_inj in Heq. congruence.
  - intros i Hne. rewrite testbit_Set_.
    destruct (Z.eqb_spec (flag_position flag) i); [congruence | done].
Qed.

(** X6 (the register stays a byte).  Set keeps an 8-bit register within 8
    bits, so its byte form still converts back to it without loss. *)
Theorem CPUStatus_Set_keeps_byte (flag : CPUStatusFlag) (value : bool) (p : CPUStatus.t) :
  CPUStatus.wf p ->
  CPUStatus.wf (CPUStatus.Set_ flag value p) /\
  is_uint8 (CPUStatus.ToByte (CPUStatus.Set_ flag value p)) /\
  CPUStatus.FromByte (CPUStatus.ToByte (CPUStatus.Set_ flag value p))
  = CPUStatus.Set_ flag value p.
Proof.
  intros Hp. pose proof (Set__wf flag value p Hp) as Hwf.
  unfold CPUStatus.wf, is_uint8 in Hwf.
  assert (Hbyte : CPUStatus.ToByte (CPUStatus.Set_ flag value p)
                  = CPUStatus.flags (CPUStatus.Set_ flag value p)).
  { unfold CPUStatus.ToByte, to_uint8. apply Z.mod_small. lia. }
  split; [exact Hwf |]. rewrite Hbyte. split; [exact Hwf |].
  apply CPUStatus_eq. intros i.
  unfold CPUStatus.FromByte. cbn [CPUStatus.flags].
  rewrite Z.land_ones by lia. rewrite Z.mod_small by lia. reflexivity.
Qed.

Lemma CPUStatus_Set_keeps_byte_witness :
  CPUStatus.wf (CPUStatus.Set_ Negative true (CPUStatus.FromByte 0x03)) /\
  is_uint8 (CPUStatus.ToByte (CPUStatus.Set_ Negative true (CPUStatus.FromByte 0x03))) /\
  CPUStatus.FromByte (CPUStatus.ToByte (CPUStatus.Set_ Negative true (CPUStatus.FromByte 0x03)))
  = CPUStatus.Set_ Negative true (CPUStatus.FromByte 0x03).
Proof.
  apply (CPUStatus_Set_keeps_byte Negative true (CPUStatus.FromByte 0x03)).
  apply FromByte_wf.
Defined.

(** X7 (Sets compose).  A second Set of the same flag replaces the first,
    and Sets of two different flags give the same register in either
    order. *)
Theorem CPUStatus_Set_Set (f g : CPUStatusFlag) (v w : bool) (p : CPUStatus.t) :
  CPUStatus.Set_ f w (CPUStatus.Set_ f v p) = CPUStatus.Set_ f w p /\
  (f <> g ->
   CPUStatus.Set_ f v (CPUStatus.Set_ g w p) = CPUStatus.Set_ g w (CPUStatus.Set_ f v p)).
Proof.
  split.
  - apply CPUStatus_eq. intros i. rewrite !testbit_Set_.
    by destruct (flag_position f =? i).
  - intros Hne. apply CPUStatus_eq. intros i. rewrite !testbit_Set_.
    destruct (Z.eqb_spec (flag_position f) i) as [Hf | Hf];
      destruct (Z.eqb_spec (flag_position g) i) as [Hg | Hg]; try done.
    exfalso. apply Hne. apply flag_position_inj. congruence.
Qed.

(** * Further properties of Load Accumulator *)

Lemma LDA_unfold {B : Type} (c : CPU.t B) :
  CPU.LDA c
  = CPU.with_p
      (CPUStatus.Set_ Zero (CPU.operand_ c =? 0x00)
         (CPUStatus.Set_ Negative (negb (Z.land (CPU.operand_ c) 0x80 =? 0x00))
            (CPU.p_ c)))
      (CPU.with_a (CPU.operand_ c) c).
Proof. reflexivity. Qed.

(** X8 (Negative and Zero exclude each other).  Whatever the operand, LDA
    never leaves both the Negative and the Zero flag set. *)
Theorem LDA_not_negative_and_zero {B : Type} (c : CPU.t B) :
  ~ (CPUStatus.Get Negative (CPU.p_ (CPU.LDA c)) = true /\
     CPUStatus.Get Zero (CPU.p_ (CPU.LDA c)) = true).
Proof.
  rewrite LDA_unfold. cbn [CPU.p_ CPU.with_p].
  rewrite !Get_Set_. cbn [flag_position].
  change (1 =? 7) with false. change (7 =? 7) with true. change (1 =? 1) with true.
  cbv iota. intros [HN HZ].
  apply Z.eqb_eq in HZ. rewrite HZ in HN. discriminate HN.
Qed.

(** X9 (LDA twice).  Executing LDA again with the same operand changes
    nothing: the operation is idempotent on the whole CPU. *)
Theorem LDA_idempotent {B : Type} (c : CPU.t B) : CPU.LDA (CPU.LDA c) = CPU.LDA c.
Proof.
  rewrite !LDA_unfold. destruct c as [bus a x y pc s p opc opd rc ops].
  unfold CPU.with_p, CPU.with_a. cbn. f_equal.
  apply CPUStatus_eq. intros i. rewrite !testbit_Set_. cbn [flag_position].
  destruct (1 =? i); [done |]. by destruct (7 =? i).
Qed.

(** * Further properties of the engine *)

Section EngineInversion.
Context {B : Type} `{!Bus.Bus B}.
Implicit Types (c : CPU.t B) (cerr : list string).

Lemma int_add_Done (x y r : Z) cerr cerr' :
  int_add x y cerr = Done r cerr' -> r = x + y /\ cerr' = cerr /\ is_int (x + y).
Proof.
  unfold int_add, is_int.
  destruct (Z.leb_spec INT_MIN (x + y)); [| discriminate].
  destruct (Z.leb_spec (x + y) INT_MAX); [| discriminate].
  cbn [andb]. unfold ret. intros [= <- <-]. repeat split; lia.
Qed.

Lemma int_sub_Done (x y r : Z) cerr cerr' :
  int_sub x y cerr = Done r cerr' -> r = x - y /\ cerr' = cerr /\ is_int (x - y).
Proof.
  unfold int_sub, is_int.
  destruct (Z.leb_spec INT_MIN (x - y)); [| discriminate].
  destruct (Z.leb_spec (x - y) INT_MAX); [| discriminate].
  cbn [andb]. unfold ret. intros [= <- <-]. repeat split; lia.
Qed.

(* The two ways in which Clock returns: a count-down, or the execution of
   an LDA found in the table. *)
Lemma Clock_Done_inv c c' cerr cerr' :
  CPU.Clock c cerr = Done c' cerr' ->
  (CPU.remaining_cycles_ c <> 0 /\ cerr' = cerr /\
   c' = CPU.with_remaining_cycles (CPU.remaining_cycles_ c - 1) c) \/
  (CPU.remaining_cycles_ c = 0 /\
   exists (op v n : Z) (bus1 bus2 : B) (cerr1 : list string),
     Bus.Read (CPU.pc_ c) (CPU.cpu_bus_ c) cerr = Done (op, bus1) cerr1 /\
     CPU.operations_ c !! op
     = Some {| CPU.addressingMode := Immediate; CPU.operation := Some CPU.op_LDA;
               CPU.cycleCount := n |} /\
     Bus.Read (to_uint16 (CPU.pc_ c + 1)) bus1 cerr1 = Done (v, bus2) cerr' /\
     c' = after_LDA op v n bus2 c).
Proof.
  intros HC. destruct (Z.eq_dec (CPU.remaining_cycles_ c) 0) as [Hrc | Hrc].
  - right. split; [exact Hrc |].
    unfold CPU.Clock in HC. rewrite Hrc in HC. cbn [Z.eqb] in HC.
    apply bind_Done in HC as (c5 & cerr5 & Hfetch & Hdec).
    apply bind_Done in Hdec as (n2 & cerr6 & Hsub & [= <- <-]).
    apply int_sub_Done in Hsub as (-> & -> & _).
    apply bind_Done in Hfetch as ([opcode c1] & cerr1 & Hop & Hrest).
    apply CPU_Read_Done in Hop as (bus1 & Hop & ->).
    cbn [CPU.cpu_bus_ CPU.with_pc] in Hop.
    unfold CPU.operations_index in Hrest.
    cbn [CPU.opcode_ CPU.operations_ CPU.with_opcode CPU.with_cpu_bus CPU.with_pc]
      in Hrest.
    destruct (CPU.operations_ c !! opcode) as [[[] oper n] |] eqn:Hentry.
    + cbn [CPU.addressingMode CPU.operation CPU.cycleCount CPU.FetchOperand] in Hrest.
      apply bind_Done in Hrest as ([operand c3] & cerr3 & Hoperand & Hrest).
      apply CPU_Read_Done in Hoperand as (bus2 & Hoperand & ->).
      cbn [CPU.cpu_bus_ CPU.pc_ CPU.with_pc CPU.with_opcode CPU.with_cpu_bus] in Hoperand.
      apply bind_Done in Hrest as (c4 & cerr4 & Hcall & Hrest).
      destruct oper as [[] |]; [| discriminate Hcall].
      unfold CPU.call, ret in Hcall. injection Hcall as <- <-.
      apply bind_Done in Hrest as (n1 & cerr7 & Hadd & [= <- <-]).
      apply int_add_Done in Hadd as (-> & -> & _).
      exists opcode, operand, n, bus1, bus2, cerr1.
      split; [exact Hop |]. split; [exact Hentry |]. split; [exact Hoperand |].
      unfold after_LDA, CPU.LDA. cbn. rewrite Hrc. f_equal.
    + cbn [CPU.addressingMode CPU.operation CPU.cycleCount CPU.FetchOperand
           CPU.OpcodeEntry_zero] in Hrest.
      apply bind_Done in Hrest as ([operand c3] & cerr3 & _ & Hrest).
      apply bind_Done in Hrest as (c4 & cerr4 & Hcall & _).
      discriminate Hcall.
  - left. split; [exact Hrc |].
    unfold CPU.Clock in HC.
    destruct (Z.eqb_spec (CPU.remaining_cycles_ c) 0) as [| _]; [done |].
    apply bind_Done in HC as (c5 & cerr5 & [= <- <-] & Hdec).
    apply bind_Done in Hdec as (n2 & cerr6 & Hsub & [= <- <-]).
    apply int_sub_Done in Hsub as (-> & -> & _). done.
Qed.

(* What Reset leaves when it returns. *)
Lemma Reset_Done_inv c c' cerr cerr' :
  CPU.Reset c cerr = Done c' cerr' ->
  exists (lo hi : Z) (bus1 bus2 : B) (cerr1 : list string),
    Bus.Read 0xFFFC (CPU.cpu_bus_ c) cerr = Done (lo, bus1) cerr1 /\
    Bus.Read 0xFFFD bus1 cerr1 = Done (hi, bus2) cerr' /\
    is_int (CPU.remaining_cycles_ c + 7) /\
    c' = {| CPU.cpu_bus_ := bus2; CPU.a_ := 0x00; CPU.x_ := 0x00; CPU.y_ := 0x00;
            CPU.pc_ := to_uint16 (Z.lor (Z.shiftl hi BITS_PER_BYTE) lo);
            CPU.s_ := STACK_POINTER_DEFAULT; CPU.p_ := CPUStatus.FromByte 0x00;
            CPU.opcode_ := CPU.opcode_ c; CPU.operand_ := CPU.operand_ c;
            CPU.remaining_cycles_ := CPU.remaining_cycles_ c + 7;
            CPU.operations_ := CPU.operations_ c |}.
Proof.
  unfold CPU.Reset. intros HR.
  apply bind_Done in HR as ([lo c1] & cerr1 & Hlo & HR).
  apply CPU_Read_Done in Hlo as (bus1 & Hlo & ->).
  apply bind_Done in HR as ([hi c2] & cerr2 & Hhi & HR).
  apply CPU_Read_Done in Hhi as (bus2 & Hhi & ->).
  apply bind_Done in HR as (n & cerr3 & Hadd & [= <- <-]).
  apply int_add_Done in Hadd as (-> & -> & Hint).
  exists lo, hi, bus1, bus2, cerr1.
  split; [exact Hlo |]. split; [exact Hhi |]. split; [exact Hint |]. reflexivity.
Qed.

End EngineInversion.

(** X10 (what Clock never touches).  Whenever Clock returns, X, Y, S and the
    opcode table are as before; and if cycles were pending, so are A, the
    status register, PC, the bus and the diagnostic stream, the counter
    being one less. *)
Theorem Clock_frame {B : Type} `{!Bus.Bus B}
    (c c' : CPU.t B) (cerr cerr' : list string) :
  CPU.Clock c cerr = Done c' cerr' ->
  CPU.x_ c' = CPU.x_ c /\ CPU.y_ c' = CPU.y_ c /\ CPU.s_ c' = CPU.s_ c /\
  CPU.operations_ c' = CPU.operations_ c /\
  (CPU.remaining_cycles_ c <> 0 ->
   CPU.a_ c' = CPU.a_ c /\ CPU.p_ c' = CPU.p_ c /\ CPU.pc_ c' = CPU.pc_ c /\
   CPU.cpu_bus_ c' = CPU.cpu_bus_ c /\ cerr' = cerr /\
   CPU.remaining_cycles_ c' = CPU.remaining_cycles_ c - 1).
Proof.
  intros HC.
  destruct (Clock_Done_inv c c' cerr cerr' HC)
    as [(Hrc & -> & ->) | (Hrc & op & v & n & bus1 & bus2 & cerr1 & _ & _ & _ & ->)].
  - repeat split.
  - repeat (split; [reflexivity |]). intros Hnz. contradiction.
Qed.

Lemma Clock_frame_witness :
  let c := power_on (bus_with_program [0xA9; 0x80]) in
  let c' := after_LDA 0xA9 0x80 2 (bus_with_program [0xA9; 0x80]) c in
  CPU.x_ c' = CPU.x_ c /\ CPU.y_ c' = CPU.y_ c /\ CPU.s_ c' = CPU.s_ c /\
  CPU.operations_ c' = CPU.operations_ c.
Proof.
  intros c c'.
  destruct (Clock_frame c c' [] []) as (Hx & Hy & Hs & Hops & _).
  - vm_compute. reflexivity.
  - repeat split; assumption.
Defined.

Lemma CPUBus_Read_Done (bus bus' : CPUBus.t) (a v : Z) (cerr cerr' : list string) :
  CPUBus.wf bus ->
  CPUBus.Read a bus cerr = Done (v, bus') cerr' -> bus' = bus /\ is_uint8 v.
Proof.
  intros [_ Hall]. unfold CPUBus.Read.
  destruct ((a >=? 0x0000) && (a <=? CPU_RAM_MAX_RANGE)).
  - unfold bind, CPUBus.at_.
    destruct (CPUBus.ram_ bus !! Z.to_nat (Z.land a CPU_RAM_ADDRESS_MASK)) as [r |] eqn:Hr;
      [| discriminate].
    intros [= <- <- _]. split; [done |].
    rewrite Forall_lookup in Hall. by eapply Hall.
  - rewrite put_report. intros [= <- <- _]. split; [done |]. unfold is_uint8. lia.
Qed.

Lemma CPUBus_Read_same_bus (bus bus' : CPUBus.t) (a v : Z) (cerr cerr' : list string) :
  CPUBus.Read a bus cerr = Done (v, bus') cerr' -> bus' = bus.
Proof.
  unfold CPUBus.Read.
  destruct ((a >=? 0x0000) && (a <=? CPU_RAM_MAX_RANGE)).
  - unfold bind. destruct (CPUBus.at_ _ _ cerr); [| discriminate].
    by intros [= _ <- _].
  - rewrite put_report. by intros [= _ <- _].
Qed.

Lemma Clock_same_bus (c c' : CPU.t CPUBus.t) (cerr cerr' : list string) :
  CPU.Clock c cerr = Done c' cerr' -> CPU.cpu_bus_ c' = CPU.cpu_bus_ c.
Proof.
  intros HC.
  destruct (Clock_Done_inv c c' cerr cerr' HC)
    as [(_ & _ & ->) | (_ & op & v & n & bus1 & bus2 & cerr1 & H1 & _ & H2 & ->)].
  - reflexivity.
  - cbn [CPU.cpu_bus_ after_LDA].
    apply CPUBus_Read_same_bus in H1 as ->. by apply CPUBus_Read_same_bus in H2 as ->.
Qed.

Lemma Reset_same_bus (c c' : CPU.t CPUBus.t) (cerr cerr' : list string) :
  CPU.Reset c cerr = Done c' cerr' -> CPU.cpu_bus_ c' = CPU.cpu_bus_ c.
Proof.
  intros HR.
  destruct (Reset_Done_inv c c' cerr cerr' HR)
    as (lo & hi & bus1 & bus2 & cerr1 & H1 & H2 & _ & ->).
  cbn [CPU.cpu_bus_].
  apply CPUBus_Read_same_bus in H1 as ->. by apply CPUBus_Read_same_bus in H2 as ->.
Qed.

(** X11 (the CPU never writes).  On a CPUBus, neither Reset nor any number
    of Clock calls changes the RAM: when they return, the bus is the one
    they started with. *)
Theorem CPU_never_writes (n : nat) (c c' : CPU.t CPUBus.t) (cerr cerr' : list string) :
  (CPU.Reset c cerr = Done c' cerr' -> CPU.cpu_bus_ c' = CPU.cpu_bus_ c) /\
  (CPU.Clock_n n c cerr = Done c' cerr' -> CPU.cpu_bus_ c' = CPU.cpu_bus_ c).
Proof.
  split; [apply Reset_same_bus |].
  revert c cerr. induction n as [| n IH]; intros c cerr.
  - cbn [CPU.Clock_n]. unfold ret. by intros [= <- _].
  - cbn [CPU.Clock_n]. intros HC.
    apply bind_Done in HC as (c1 & cerr1 & H1 & Hn).
    apply IH in Hn. apply Clock_same_bus in H1. congruence.
Qed.

Lemma CPU_never_writes_witness :
  exists c' cerr',
    CPU.Clock_n 3 (power_on (bus_with_program [0xA9; 0x01; 0xA9; 0x02])) [] = Done c' cerr' /\
    CPU.a_ c' = 0x02 /\
    CPU.cpu_bus_ c' = bus_with_program [0xA9; 0x01; 0xA9; 0x02].
Proof.
  eexists _, _. split; [vm_compute; reflexivity |]. split; [reflexivity |].
  apply (CPU_never_writes 3 (power_on (bus_with_program [0xA9; 0x01; 0xA9; 0x02])) _ [] []).
  vm_compute. reflexivity.
Defined.

Lemma to_uint16_range (x : Z) : is_uint16 (to_uint16 x).
Proof. unfold is_uint16, to_uint16. apply Z.mod_pos_bound. lia. Qed.

Lemma loaded_operations_lookup (op : Z) (entry : CPU.OpcodeEntry) :
  loaded_operations !! op = Some entry ->
  op = 0xA9 /\
  entry = {| CPU.addressingMode := Immediate; CPU.operation := Some CPU.op_LDA;
             CPU.cycleCount := 2 |}.
Proof.
  unfold loaded_operations. intros Hl.
  apply lookup_singleton_Some in Hl as [<- <-]. done.
Qed.

Lemma power_on_inv (bus : CPUBus.t) : CPUBus.wf bus -> machine_inv (power_on bus).
Proof.
  intros Hwf. unfold machine_inv, power_on.
  cbn [CPU.cpu_bus_ CPU.a_ CPU.x_ CPU.y_ CPU.pc_ CPU.s_ CPU.p_ CPU.opcode_
       CPU.operand_ CPU.remaining_cycles_ CPU.operations_].
  unfold CPUStatus.wf, is_uint8, is_uint16, INT_MAX. cbn [CPUStatus.flags].
  repeat split; try lia; try done. all: by destruct Hwf.
Qed.

Lemma Clock_inv (c c' : CPU.t CPUBus.t) (cerr cerr' : list string) :
  machine_inv c -> CPU.Clock c cerr = Done c' cerr' -> machine_inv c'.
Proof.
  intros (Hbus & Ha & Hx & Hy & Hpc & Hs & Hp & Hopc & Hopd & Hrc & Hops) HC.
  destruct (Clock_Done_inv c c' cerr cerr' HC)
    as [(Hnz & _ & ->) | (Hz & op & v & n & bus1 & bus2 & cerr1 & H1 & Hl & H2 & ->)].
  - unfold machine_inv.
    cbn [CPU.cpu_bus_ CPU.a_ CPU.x_ CPU.y_ CPU.pc_ CPU.s_ CPU.p_ CPU.opcode_
         CPU.operand_ CPU.remaining_cycles_ CPU.operations_ CPU.with_remaining_cycles].
    repeat (split; [assumption |]). split; [lia | assumption].
  - rewrite Hops in Hl. apply loaded_operations_lookup in Hl as [-> [= ->]].
    apply (CPUBus_Read_Done _ _ _ _ _ _ Hbus) in H1 as [-> Hop8].
    apply (CPUBus_Read_Done _ _ _ _ _ _ Hbus) in H2 as [-> Hv8].
    unfold machine_inv.
    cbn [CPU.cpu_bus_ CPU.a_ CPU.x_ CPU.y_ CPU.pc_ CPU.s_ CPU.p_ CPU.opcode_
         CPU.operand_ CPU.remaining_cycles_ CPU.operations_ after_LDA].
    split; [assumption |]. split; [assumption |].
    split; [assumption |]. split; [assumption |].
    split; [apply to_uint16_range |]. split; [assumption |].
    split; [by do 2 apply Set__wf |].
    split; [assumption |]. split; [assumption |].
    split; [unfold INT_MAX; lia | assumption].
Qed.

Lemma Reset_inv (c c' : CPU.t CPUBus.t) (cerr cerr' : list string) :
  machine_inv c -> CPU.Reset c cerr = Done c' cerr' -> machine_inv c'.
Proof.
  intros (Hbus & Ha & Hx & Hy & Hpc & Hs & Hp & Hopc & Hopd & Hrc & Hops) HR.
  destruct (Reset_Done_inv c c' cerr cerr' HR)
    as (lo & hi & bus1 & bus2 & cerr1 & H1 & H2 & Hint & ->).
  apply (CPUBus_Read_Done _ _ _ _ _ _ Hbus) in H1 as [-> _].
  apply (CPUBus_Read_Done _ _ _ _ _ _ Hbus) in H2 as [-> _].
  unfold machine_inv.
  cbn [CPU.cpu_bus_ CPU.a_ CPU.x_ CPU.y_ CPU.pc_ CPU.s_ CPU.p_ CPU.opcode_
       CPU.operand_ CPU.remaining_cycles_ CPU.operations_].
  split; [assumption |].
  split; [unfold is_uint8; lia |]. split; [unfold is_uint8; lia |].
  split; [unfold is_uint8; lia |].
  split; [apply to_uint16_range |].
  split; [unfold is_uint8, STACK_POINTER_DEFAULT; lia |].
  split; [apply FromByte_wf |].
  split; [assumption |]. split; [assumption |].
  split; [unfold is_int in Hint; lia | assumption].
Qed.

(** X12 (the state invariant).  A CPU constructed on a bus whose array has
    its size and holds bytes satisfies the invariant [machine_inv], and
    Reset and every number of Clock calls keep it whenever they return: all
    members stay in the range of their C++ types, PC in particular wraps
    within 16 bits, the pending-cycle counter is never negative and the
    opcode table is never altered. *)
Theorem machine_inv_kept (n : nat) (bus : CPUBus.t) (c c' : CPU.t CPUBus.t)
    (cerr cerr' : list string) :
  (CPUBus.wf bus ->
   exists c0, CPU.CPU (Some bus) cerr = Done c0 cerr /\ machine_inv c0) /\
  (machine_inv c -> CPU.Reset c cerr = Done c' cerr' -> machine_inv c') /\
  (machine_inv c -> CPU.Clock_n n c cerr = Done c' cerr' -> machine_inv c').
Proof.
  split; [| split].
  - intros Hwf. exists (power_on bus). split; [reflexivity | by apply power_on_inv].
  - apply Reset_inv.
  - revert c cerr. induction n as [| n IH]; intros c cerr Hinv.
    + cbn [CPU.Clock_n]. unfold ret. by intros [= <- _].
    + cbn [CPU.Clock_n]. intros HC.
      apply bind_Done in HC as (c1 & cerr1 & H1 & Hn).
      apply (IH c1 cerr1); [| exact Hn]. by apply (Clock_inv c c1 cerr cerr1).
Qed.

Lemma machine_inv_kept_witness :
  exists c',
    CPU.Clock_n 3 (power_on (bus_with_program [0xA9; 0x01; 0xA9; 0x02])) [] = Done c' [] /\
    machine_inv c'.
Proof.
  eexists. split; [vm_compute; reflexivity |].
  apply (machine_inv_kept 3 CPUBus.CPUBus
           (power_on (bus_with_program [0xA9; 0x01; 0xA9; 0x02])) _ [] []).
  - apply power_on_inv. apply bus_with_program_wf; [| unfold CPU_RAM_SIZE; simpl; lia].
    repeat constructor; unfold is_uint8; lia.
  - vm_compute. reflexivity.
Defined.



(** X14 (the start sequence).  When Reset returns on a CPU with [k] cycles
    pending, [k] not negative, the next [k + 7] Clock calls refuse to fetch
    and the call after them fetches: for a CPU just constructed, the first
    instruction is fetched by the eighth Clock call after Reset. *)
Theorem Reset_then_Clock {B : Type} `{!Bus.Bus B}
    (c c' : CPU.t B) (cerr cerr' : list string) :
  0 <= CPU.remaining_cycles_ c ->
  CPU.Reset c cerr = Done c' cerr' ->
  CPU.remaining_cycles_ c' = CPU.remaining_cycles_ c + 7 /\
  refuses_for (Z.to_nat (CPU.remaining_cycles_ c + 7)) c' cerr' /\
  fetches_after (Z.to_nat (CPU.remaining_cycles_ c + 7)) c' cerr'.
Proof.
  intros Hk HR.
  destruct (Reset_Done_inv c c' cerr cerr' HR)
    as (lo & hi & bus1 & bus2 & cerr1 & _ & _ & Hint & ->).
  cbn [CPU.remaining_cycles_]. unfold is_int, INT_MIN, INT_MAX in Hint.
  split; [reflexivity |]. split.
  - intros j Hj. eexists. split.
    + apply Clock_n_mid_instruction. cbn [CPU.remaining_cycles_]. unfold INT_MAX. lia.
    + apply Clock_mid_instruction_refuses;
        cbn [CPU.remaining_cycles_ CPU.with_remaining_cycles];
        unfold is_int, INT_MIN, INT_MAX; lia.
  - eexists. split; [| split; [| split]].
    + apply Clock_n_mid_instruction. cbn [CPU.remaining_cycles_]. unfold INT_MAX. lia.
    + cbn [CPU.remaining_cycles_ CPU.with_remaining_cycles]. lia.
    + apply Clock_idle_fetches.
      cbn [CPU.remaining_cycles_ CPU.with_remaining_cycles]. lia.
    + intros c'' cerr''. apply Clock_idle_advances_pc.
      cbn [CPU.remaining_cycles_ CPU.with_remaining_cycles]. lia.
Qed.

Lemma Reset_then_Clock_witness :
  exists c',
    CPU.Reset (power_on CPUBus.CPUBus) [] = Done c' (reported (reported [])) /\
    CPU.remaining_cycles_ c' = 0 + 7 /\
    refuses_for (Z.to_nat (0 + 7)) c' (reported (reported [])) /\
    fetches_after (Z.to_nat (0 + 7)) c' (reported (reported [])).
Proof.
  eexists. split; [vm_compute; reflexivity |].
  apply (Reset_then_Clock (power_on CPUBus.CPUBus) _ [] (reported (reported []))).
  - simpl. lia.
  - vm_compute. reflexivity.
Defined.

(** * Programs *)

Lemma next_cell_differs (a : Z) :
  Z.land (a + 1) CPU_RAM_ADDRESS_MASK <> Z.land a CPU_RAM_ADDRESS_MASK.
Proof.
  change CPU_RAM_ADDRESS_MASK with (Z.ones 11). rewrite !Z.land_ones by lia.
  change (2 ^ 11) with 2048. intros Heq.
  pose proof (Z.div_mod a 2048 ltac:(lia)) as H1.
  pose proof (Z.div_mod (a + 1) 2048 ltac:(lia)) as H2.
  pose proof (Z.mod_pos_bound a 2048 ltac:(lia)) as H3.
  rewrite Heq in H2. nia.
Qed.

(** X15 (an instruction written through the bus).  For every address [a] in
    0x0000..0x1FFE and every byte [v]: after Write of 0xA9 at [a] and of
    [v] at [a + 1], a CPU constructed on that bus and sent to [a] with
    SetProgramCounter executes the instruction at its first Clock call and
    only counts down at the second; the helpers then read A equal to [v],
    Zero equal to [v == 0], Negative equal to bit 7 of [v] and PC equal to
    [a + 2], the engine is idle again and the RAM is as written. *)
Theorem LDA_written_then_clocked (bus : CPUBus.t) (a v : Z) (cerr : list string) :
  CPUBus.wf bus -> 0x0000 <= a <= 0x1FFE -> is_uint8 v ->
  exists bus' c0 c1 c2 cerr',
    (let* b := CPUBus.Write a 0xA9 bus in CPUBus.Write (a + 1) v b) cerr
    = Done bus' cerr' /\
    CPU.CPU (Some bus') cerr' = Done c0 cerr' /\
    CPU.Clock (CPUTestHelper.SetProgramCounter c0 a) cerr' = Done c1 cerr' /\
    CPUTestHelper.GetAccumulator c1 = v /\
    CPU.Clock c1 cerr' = Done c2 cerr' /\
    CPUTestHelper.GetAccumulator c2 = v /\
    CPUTestHelper.GetStatusFlag c2 Zero = (v =? 0) /\
    CPUTestHelper.GetStatusFlag c2 Negative = Z.testbit v 7 /\
    CPUTestHelper.GetProgramCounter c2 = a + 2 /\
    CPU.remaining_cycles_ c2 = 0 /\
    CPU.cpu_bus_ c2 = bus'.
Proof.
  intros Hwf Ha Hv.
  assert (HA9 : is_uint8 0xA9) by (unfold is_uint8; lia).
  assert (Ha16 : is_uint16 a /\ is_uint16 (a + 1)) by (unfold is_uint16; lia).
  destruct Ha16 as [Ha16 Ha16'].
  destruct (Read_Write_same_cell bus a a 0xA9 cerr (reported (reported cerr)) Hwf)
    as (bus1 & HW1 & HR1); [lia | lia | reflexivity |].
  pose proof (Write_preserves_wf _ _ _ _ _ _ Hwf HA9 Ha16 HW1) as Hwf1.
  destruct (Read_Write_other_cell bus1 (a + 1) a v 0xA9 (reported cerr)
              (reported (reported cerr)) Hwf1)
    as (bus2 & HW2 & HR2); [lia | lia | | exact HR1 |].
  { intros Heq. by apply (next_cell_differs a). }
  destruct (Read_Write_same_cell bus1 (a + 1) (a + 1) v (reported cerr)
              (reported (reported cerr)) Hwf1)
    as (bus2' & HW2' & HR3); [lia | lia | reflexivity |].
  rewrite HW2 in HW2'. injection HW2' as <-.
  set (c0 := power_on bus2).
  set (c1 := after_LDA 0xA9 v 2 bus2 (CPUTestHelper.SetProgramCounter c0 a)).
  exists bus2, c0, c1, (CPU.with_remaining_cycles 0 c1), (reported (reported cerr)).
  split; [unfold bind; by rewrite HW1 |]. split; [reflexivity |].
  assert (Hnext : to_uint16 (a + 1) = a + 1)
    by (unfold to_uint16; apply Z.mod_small; lia).
  split.
  { apply (Clock_executes_LDA 0xA9 v 2 bus2 bus2 (CPUTestHelper.SetProgramCounter c0 a)
             (reported (reported cerr)) (reported (reported cerr))
             (reported (reported cerr))).
    - reflexivity.
    - exact HR2.
    - apply lookup_singleton_eq.
    - cbn [CPU.pc_ CPUTestHelper.SetProgramCounter CPU.with_pc]. rewrite Hnext.
      exact HR3.
    - unfold INT_MIN, INT_MAX. lia. }
  split; [reflexivity |]. split.
  { rewrite Clock_mid_instruction; [reflexivity | |];
      cbn [CPU.remaining_cycles_ c1 after_LDA]; unfold is_int, INT_MIN, INT_MAX; lia. }
  split; [reflexivity |].
  unfold CPUTestHelper.GetStatusFlag, CPUTestHelper.GetProgramCounter.
  cbn [CPU.p_ CPU.pc_ CPU.remaining_cycles_ CPU.cpu_bus_ CPU.with_remaining_cycles
       c1 after_LDA CPUTestHelper.SetProgramCounter CPU.with_pc].
  split; [by rewrite Get_Set_ |]. split.
  { rewrite !Get_Set_. cbn [flag_position].
    change (1 =? 7) with false. change (7 =? 7) with true. cbv iota.
    change 0x80 with (2 ^ 7). apply land_bit_test. lia. }
  split; [| done].
  rewrite Hnext. unfold to_uint16. rewrite Z.mod_small by lia. lia.
Qed.

Lemma LDA_written_then_clocked_witness :
  exists bus' c0 c1 c2 cerr',
    (let* b := CPUBus.Write 0x07FF 0xA9 CPUBus.CPUBus in CPUBus.Write (0x07FF + 1) 0x80 b) []
    = Done bus' cerr' /\
    CPU.CPU (Some bus') cerr' = Done c0 cerr' /\
    CPU.Clock (CPUTestHelper.SetProgramCounter c0 0x07FF) cerr' = Done c1 cerr' /\
    CPUTestHelper.GetAccumulator c1 = 0x80 /\
    CPU.Clock c1 cerr' = Done c2 cerr' /\
    CPUTestHelper.GetAccumulator c2 = 0x80 /\
    CPUTestHelper.GetStatusFlag c2 Zero = (0x80 =? 0) /\
    CPUTestHelper.GetStatusFlag c2 Negative = Z.testbit 0x80 7 /\
    CPUTestHelper.GetProgramCounter c2 = 0x07FF + 2 /\
    CPU.remaining_cycles_ c2 = 0 /\
    CPU.cpu_bus_ c2 = bus'.
Proof.
  apply (LDA_written_then_clocked CPUBus.CPUBus 0x07FF 0x80 []).
  - exact CPUBus_default_wf.
  - lia.
  - unfold is_uint8. lia.
Defined.

Lemma assemble_app (l1 l2 : list Z) : assemble (l1 ++ l2) = assemble l1 ++ assemble l2.
Proof. induction l1 as [| v l1 IH]; [done |]. simpl. by rewrite IH. Qed.

Lemma assemble_length (vs : list Z) : length (assemble vs) = (2 * length vs)%nat.
Proof. induction vs as [| v vs IH]; [done |]. simpl. rewrite IH. lia. Qed.

Lemma to_uint16_add_l (x y : Z) : to_uint16 (to_uint16 x + y) = to_uint16 (x + y).
Proof. unfold to_uint16. apply Zplus_mod_idemp_l. Qed.

Lemma Clock_n_app {B : Type} `{!Bus.Bus B} (m n : nat)
    (c c1 : CPU.t B) (cerr cerr1 : list string) :
  CPU.Clock_n m c cerr = Done c1 cerr1 ->
  CPU.Clock_n (m + n) c cerr = CPU.Clock_n n c1 cerr1.
Proof.
  revert c cerr. induction m as [| m IH]; intros c cerr.
  - cbn [CPU.Clock_n]. unfold ret. by intros [= <- <-].
  - cbn [CPU.Clock_n Nat.add]. intros Hm.
    apply bind_Done in Hm as (c0 & cerr0 & H0 & Hm).
    unfold bind. rewrite H0. by apply IH.
Qed.

(** X16 (a program of loads).  On an idle CPU with the loaded table, whose bus
    serves the code of the instructions LDA #v for the [v] of a list, from
    PC on: twice as many Clock calls as there are instructions return with
    the engine idle again, PC advanced by the length of the code (modulo
    2^16), A and the Negative and Zero flags those of the last operand (A
    unchanged when the list is empty), and X, Y, S, the table and the bus
    as before. *)
Theorem Clock_runs_program {B : Type} `{!Bus.Bus B}
    (vs : list Z) (c : CPU.t B) (cerr : list string) :
  CPU.remaining_cycles_ c = 0 ->
  CPU.operations_ c = loaded_operations ->
  is_uint16 (CPU.pc_ c) ->
  serves (CPU.cpu_bus_ c) (CPU.pc_ c) (assemble vs) ->
  exists c',
    CPU.Clock_n (2 * length vs) c cerr = Done c' cerr /\
    CPU.remaining_cycles_ c' = 0 /\
    CPU.pc_ c' = to_uint16 (CPU.pc_ c + 2 * Z.of_nat (length vs)) /\
    CPU.a_ c' = default (CPU.a_ c) (last vs) /\
    (forall v, last vs = Some v ->
       CPUStatus.Get Negative (CPU.p_ c') = Z.testbit v 7 /\
       CPUStatus.Get Zero (CPU.p_ c') = (v =? 0)) /\
    CPU.x_ c' = CPU.x_ c /\ CPU.y_ c' = CPU.y_ c /\ CPU.s_ c' = CPU.s_ c /\
    CPU.operations_ c' = CPU.operations_ c /\
    CPU.cpu_bus_ c' = CPU.cpu_bus_ c.
Proof.
  intros Hrc Hops Hpc. rewrite <- assemble_length.
  induction vs as [| v vs IH] using rev_ind; intros Hserve.
  - exists c. cbn [assemble length CPU.Clock_n]. split; [reflexivity |].
    split; [exact Hrc |]. split.
    { unfold to_uint16. rewrite Z.add_0_r. symmetry. apply Z.mod_small. exact Hpc. }
    split; [reflexivity |]. split; [intros v [=] |]. done.
  - rewrite assemble_app in Hserve. cbn [assemble] in Hserve.
    destruct IH as (c1 & Hrun & Hrc1 & Hpc1 & _ & _ & Hx & Hy & Hs & Hops1 & Hbus1).
    { intros i b cerr0 Hi. apply Hserve. by apply lookup_app_l_Some. }
    assert (Hop : Bus.Read (CPU.pc_ c1) (CPU.cpu_bus_ c1) cerr
                  = Done (0xA9, CPU.cpu_bus_ c1) cerr).
    { rewrite Hpc1, Hbus1.
      replace (2 * Z.of_nat (length vs)) with (Z.of_nat (length (assemble vs)))
        by (rewrite assemble_length; lia).
      apply Hserve. rewrite lookup_app_r by lia. by rewrite Nat.sub_diag. }
    assert (Hv : Bus.Read (to_uint16 (CPU.pc_ c1 + 1)) (CPU.cpu_bus_ c1) cerr
                 = Done (v, CPU.cpu_bus_ c1) cerr).
    { rewrite Hpc1, Hbus1, to_uint16_add_l.
      replace (CPU.pc_ c + 2 * Z.of_nat (length vs) + 1)
        with (CPU.pc_ c + Z.of_nat (S (length (assemble vs))))
        by (rewrite assemble_length; lia).
      apply Hserve. rewrite lookup_app_r by lia.
      by replace (S (length (assemble vs)) - length (assemble vs))%nat with 1%nat by lia. }
    pose proof (Clock_executes_LDA 0xA9 v 2 (CPU.cpu_bus_ c1) (CPU.cpu_bus_ c1) c1
                  cerr cerr cerr Hrc1 Hop) as Hexec.
    rewrite Hops1, Hops in Hexec.
    specialize (Hexec (lookup_singleton_eq _ _) Hv
                  ltac:(unfold INT_MIN, INT_MAX; lia)).
    exists (CPU.with_remaining_cycles 0
              (after_LDA 0xA9 v 2 (CPU.cpu_bus_ c1) c1)).
    split.
    { rewrite assemble_app, length_app. cbn [assemble length].
      rewrite (Clock_n_app _ 2 c c1 cerr cerr Hrun).
      cbn [CPU.Clock_n]. unfold bind. rewrite Hexec.
      rewrite Clock_mid_instruction; [reflexivity | |];
        cbn [CPU.remaining_cycles_ after_LDA]; unfold is_int, INT_MIN, INT_MAX; lia. }
    cbn [CPU.remaining_cycles_ CPU.pc_ CPU.a_ CPU.p_ CPU.x_ CPU.y_ CPU.s_
         CPU.operations_ CPU.cpu_bus_ CPU.with_remaining_cycles after_LDA].
    split; [reflexivity |]. split.
    { rewrite Hpc1, to_uint16_add_l, <- Z.add_assoc, to_uint16_add_l.
      f_equal. rewrite length_app. cbn [length]. lia. }
    rewrite last_snoc. split; [reflexivity |]. split.
    { intros v0 [= <-]. rewrite !Get_Set_. cbn [flag_position].
      change (1 =? 7) with false. change (7 =? 7) with true. change (1 =? 1) with true.
      cbv iota. split; [| reflexivity].
      change 0x80 with (2 ^ 7). apply land_bit_test. lia. }
    repeat split; congruence.
Qed.

Lemma Clock_runs_program_witness :
  exists c',
    CPU.Clock_n (2 * length [0x01; 0x80])
      (power_on (bus_with_program (assemble [0x01; 0x80]))) [] = Done c' [] /\
    CPU.remaining_cycles_ c' = 0 /\
    CPU.pc_ c' = to_uint16 (0x0000 + 2 * Z.of_nat (length [0x01; 0x80])) /\
    CPU.a_ c' = 0x80.
Proof.
  destruct (Clock_runs_program [0x01; 0x80]
              (power_on (bus_with_program (assemble [0x01; 0x80]))) [])
    as (c' & Hrun & Hrc & Hpc & Ha & _).
  - reflexivity.
  - reflexivity.
  - unfold is_uint16. simpl. lia.
  - intros i b cerr0 Hi.
    destruct i as [| [| [| [| i]]]]; simpl in Hi; try discriminate;
      injection Hi as <-; vm_compute; reflexivity.
  - exists c'. split; [exact Hrun |]. split; [exact Hrc |]. split; [exact Hpc |].
    exact Ha.
Defined.
